(** * brdoc: CPF and CNPJ validation, formatting and generation

    A shallow embedding of [brdoc/cpf.py], [brdoc/cnpj.py] and
    [brdoc/exceptions.py], and the properties of the two document classes.

    Python values are modelled as follows.
    - [int] is [Z] (unbounded).
    - [str] is a list of Unicode code points; a one-character string, such
      as the result of indexing a string, is a single code point.
    - A call that may raise returns a [py A]: either [Return a] or
      [Raise e].
    - [random.randint] reads an explicit stream of entropy. *)

From Stdlib Require Import ZArith NArith List String Ascii Bool Lia.
From Stdlib Require Import Decimal DecimalString DecimalZ.
Import ListNotations.
Local Open Scope Z_scope.

(** ** Strings *)

Definition char : Type := N.
Definition str : Type := list char.

(** An ASCII literal of the source, as a [str]. *)
Definition lit (s : string) : str := map N_of_ascii (list_ascii_of_string s).
Arguments lit s%_string.

(** [len(s)] *)
Definition len {A : Type} (l : list A) : Z := Z.of_nat (List.length l).

(** [a == b] on strings: same code points in the same order. *)
Fixpoint str_eqb (a b : str) : bool :=
  match a, b with
  | [], [] => true
  | x :: a', y :: b' => N.eqb x y && str_eqb a' b'
  | _, _ => false
  end.

(** [c * n] for a one-character string [c]. *)
Definition str_mul (c : char) (n : Z) : str := repeat c (Z.to_nat n).

(** [s[lo:hi]], [s[:hi]] and [s[lo:]] for literal, non-negative bounds;
    bounds past the end are clamped, as Python does. *)
Definition slice {A : Type} (s : list A) (lo hi : nat) : list A :=
  firstn (hi - lo) (skipn lo s).
Definition slice_to {A : Type} (s : list A) (hi : nat) : list A := firstn hi s.
Definition slice_from {A : Type} (s : list A) (lo : nat) : list A := skipn lo s.

(** [str(n)] for an int: its decimal rendering. *)
Definition str_int (n : Z) : str := lit (NilZero.string_of_int (Z.to_int n)).

(** ** Exceptions *)

Inductive exn : Type :=
| IndexError
| ValueError
| InvalidCPFError (msg : str)
| InvalidCNPJError (msg : str).

Inductive py (A : Type) : Type :=
| Return (a : A)
| Raise (e : exn).
Arguments Return {A} a.
Arguments Raise {A} e.

Definition bind {A B : Type} (m : py A) (k : A -> py B) : py B :=
  match m with
  | Return a => k a
  | Raise e => Raise e
  end.

Notation "x <- m ;; k" := (bind m (fun x => k))
  (at level 61, m at next level, right associativity).

(** [l[i]]: a negative index counts from the end, an index out of range
    raises [IndexError]. *)
Definition getitem {A : Type} (l : list A) (i : Z) : py A :=
  let j := if i <? 0 then i + len l else i in
  if j <? 0 then Raise IndexError
  else match nth_error l (Z.to_nat j) with
       | Some x => Return x
       | None => Raise IndexError
       end.

(** [range(n)] *)
Definition range (n : nat) : list Z := map Z.of_nat (seq 0 n).

(** [sum(f(i) for i in idx)]: the items are produced and added from left
    to right, starting from 0; the first exception ends the sum. *)
Fixpoint sum_loop (f : Z -> py Z) (idx : list Z) (acc : Z) : py Z :=
  match idx with
  | [] => Return acc
  | i :: rest => v <- f i ;; sum_loop f rest (acc + v)
  end.
Definition py_sum (f : Z -> py Z) (idx : list Z) : py Z := sum_loop f idx 0.

(** ** Unicode decimal digits

    On a [str] pattern, [\d] of [re] matches the characters that have a
    decimal digit value (general category Nd) and [\D] the others; [int]
    reads the same characters with that value.  The decimal digits come in
    runs of ten consecutive code points, from the digit zero to the digit
    nine; the table lists the zero of each run (Unicode 14.0.0, the
    database of CPython 3.11; later versions only add runs). *)
Definition decimal_zeros : list N :=
  [48; 1632; 1776; 1984; 2406; 2534; 2662; 2790; 2918; 3046; 3174; 3302;
   3430; 3558; 3664; 3792; 3872; 4160; 4240; 6112; 6160; 6470; 6608; 6784;
   6800; 6992; 7088; 7232; 7248; 42528; 43216; 43264; 43472; 43504; 43600;
   44016; 65296; 66720; 68912; 69734; 69872; 69942; 70096; 70384; 70736;
   70864; 71248; 71360; 71472; 71904; 72016; 72784; 73040; 73120; 92768;
   92864; 93008; 120782; 120792; 120802; 120812; 120822; 123200; 123632;
   125264; 130032]%N.

Fixpoint lookup_decimal (zeros : list N) (c : char) : option Z :=
  match zeros with
  | [] => None
  | z :: rest =>
      if (N.leb z c && N.ltb c (z + 10))%N then Some (Z.of_N (c - z))
      else lookup_decimal rest c
  end.

(** The decimal digit value of a character, if it has one. *)
Definition to_decimal (c : char) : option Z := lookup_decimal decimal_zeros c.

(** [\d] matches [c]. *)
Definition is_decimal (c : char) : bool :=
  match to_decimal c with Some _ => true | None => false end.

(** [int(c)] for a one-character string [c]. *)
Definition int_char (c : char) : py Z :=
  match to_decimal c with
  | Some v => Return v
  | None => Raise ValueError
  end.

(** [re.sub(r"\D", "", s)]: every character matched by [\D] is replaced
    by the empty string. *)
Definition re_sub_nondigit (s : str) : str := filter is_decimal s.

(** ** The random source

    [random.randint(a, b)] returns an integer between [a] and [b], both
    included.  The generator state is a stream of raw integers; a draw
    consumes its head. *)
Definition rng : Type := nat -> Z.

Definition randint (a b : Z) (g : rng) : Z * rng :=
  (a + (g 0%nat) mod (b - a + 1), fun n => g (S n)).

(** [[random.randint(a, b) for _ in range(n)]] *)
Fixpoint randint_list (a b : Z) (n : nat) (g : rng) : list Z * rng :=
  match n with
  | O => ([], g)
  | S n' =>
      let (x, g1) := randint a b g in
      let (xs, g2) := randint_list a b n' g1 in
      (x :: xs, g2)
  end.

(** ** Objects

    Both classes set the same two attributes in [__init__]. *)
Record attrs : Type := { _original : str; _digits : str }.

(** The values an [object] parameter may receive: an instance of one of
    the two classes, or a value of another type. *)
Inductive object : Type :=
| CPF_instance (a : attrs)
| CNPJ_instance (a : attrs)
| str_object (s : str)
| int_object (n : Z)
| None_object.

(** ** [brdoc/cpf.py] *)
Module CPF.

(** [CPF._clean] *)
Definition _clean (cpf : str) : str := re_sub_nondigit cpf.

(** [CPF.__init__] *)
Definition __init__ (cpf : str) : attrs :=
  {| _original := cpf; _digits := _clean cpf |}.

(** [CPF.digits] *)
Definition digits (self : attrs) : str := _digits self.

(** [CPF.formatted] *)
Definition formatted (self : attrs) : py str :=
  if negb (len (_digits self) =? 11) then
    Raise (InvalidCPFError
             (lit "CPF must have 11 digits, got " ++ str_int (len (_digits self))))
  else
    Return (slice_to (_digits self) 3 ++ lit "." ++
            slice (_digits self) 3 6 ++ lit "." ++
            slice (_digits self) 6 9 ++ lit "-" ++
            slice_from (_digits self) 9).

(** [CPF._validate_check_digits] *)
Definition _validate_check_digits (self : attrs) : py bool :=
  sum_first <- py_sum (fun i => c <- getitem (_digits self) i ;;
                                v <- int_char c ;;
                                Return (v * (10 - i))) (range 9) ;;
  let first_digit := (sum_first * 10) mod 11 in
  let first_digit := if first_digit =? 10 then 0 else first_digit in
  c9 <- getitem (_digits self) 9 ;;
  v9 <- int_char c9 ;;
  if negb (v9 =? first_digit) then Return false
  else
    sum_second <- py_sum (fun i => c <- getitem (_digits self) i ;;
                                   v <- int_char c ;;
                                   Return (v * (11 - i))) (range 10) ;;
    let second_digit := (sum_second * 10) mod 11 in
    let second_digit := if second_digit =? 10 then 0 else second_digit in
    c10 <- getitem (_digits self) 10 ;;
    v10 <- int_char c10 ;;
    Return (v10 =? second_digit).

(** [CPF.is_valid] *)
Definition is_valid (self : attrs) : py bool :=
  if negb (len (_digits self) =? 11) then Return false
  else
    c0 <- getitem (_digits self) 0 ;;
    if str_eqb (_digits self) (str_mul c0 11) then Return false
    else _validate_check_digits self.

(** [CPF.validate] *)
Definition validate (cpf : str) : py bool := is_valid (__init__ cpf).

(** [CPF.generate] *)
Definition generate (formatted : bool) (g : rng) : py attrs * rng :=
  let (base_digits, g') := randint_list 0 9 9 g in
  (sum_first <- py_sum (fun i => b <- getitem base_digits i ;;
                                 Return (b * (10 - i))) (range 9) ;;
   let first_digit := (sum_first * 10) mod 11 in
   let first_digit := if first_digit =? 10 then 0 else first_digit in
   let base_digits := base_digits ++ [first_digit] in
   sum_second <- py_sum (fun i => b <- getitem base_digits i ;;
                                  Return (b * (11 - i))) (range 10) ;;
   let second_digit := (sum_second * 10) mod 11 in
   let second_digit := if second_digit =? 10 then 0 else second_digit in
   let base_digits := base_digits ++ [second_digit] in
   let cpf_str := List.concat (map str_int base_digits) in
   let cpf_obj := __init__ cpf_str in
   Return cpf_obj,
   g').

(** [CPF.__str__] *)
Definition __str__ (self : attrs) : py str :=
  match formatted self with
  | Raise (InvalidCPFError _) => Return (_digits self)
  | r => r
  end.

(** [CPF.__repr__] *)
Definition __repr__ (self : attrs) : str :=
  lit "CPF('" ++ _original self ++ lit "')".

(** [CPF.__eq__] *)
Definition __eq__ (self : attrs) (other : object) : bool :=
  match other with
  | CPF_instance o => str_eqb (_digits self) (_digits o)
  | _ => false
  end.

Section Hash.
(** The built-in [hash] on strings. *)
Variable hash_str : str -> Z.

(** [CPF.__hash__] *)
Definition __hash__ (self : attrs) : Z := hash_str (_digits self).
End Hash.

End CPF.

(** ** [brdoc/cnpj.py] *)
Module CNPJ.

(** [CNPJ._clean] *)
Definition _clean (cnpj : str) : str := re_sub_nondigit cnpj.

(** [CNPJ.__init__] *)
Definition __init__ (cnpj : str) : attrs :=
  {| _original := cnpj; _digits := _clean cnpj |}.

(** [CNPJ.digits] *)
Definition digits (self : attrs) : str := _digits self.

(** [CNPJ.formatted] *)
Definition formatted (self : attrs) : py str :=
  if negb (len (_digits self) =? 14) then
    Raise (InvalidCNPJError
             (lit "CNPJ must have 14 digits, got " ++ str_int (len (_digits self))))
  else
    Return (slice_to (_digits self) 2 ++ lit "." ++
            slice (_digits self) 2 5 ++ lit "." ++
            slice (_digits self) 5 8 ++ lit "/" ++
            slice (_digits self) 8 12 ++ lit "-" ++
            slice_from (_digits self) 12).

Definition weights_first : list Z := [5; 4; 3; 2; 9; 8; 7; 6; 5; 4; 3; 2].
Definition weights_second : list Z := [6; 5; 4; 3; 2; 9; 8; 7; 6; 5; 4; 3; 2].

(** [CNPJ._validate_check_digits] *)
Definition _validate_check_digits (self : attrs) : py bool :=
  sum_first <- py_sum (fun i => c <- getitem (_digits self) i ;;
                                v <- int_char c ;;
                                w <- getitem weights_first i ;;
                                Return (v * w)) (range 12) ;;
  let first_digit := sum_first mod 11 in
  let first_digit := if first_digit <? 2 then 0 else 11 - first_digit in
  c12 <- getitem (_digits self) 12 ;;
  v12 <- int_char c12 ;;
  if negb (v12 =? first_digit) then Return false
  else
    sum_second <- py_sum (fun i => c <- getitem (_digits self) i ;;
                                   v <- int_char c ;;
                                   w <- getitem weights_second i ;;
                                   Return (v * w)) (range 13) ;;
    let second_digit := sum_second mod 11 in
    let second_digit := if second_digit <? 2 then 0 else 11 - second_digit in
    c13 <- getitem (_digits self) 13 ;;
    v13 <- int_char c13 ;;
    Return (v13 =? second_digit).

(** [CNPJ.is_valid] *)
Definition is_valid (self : attrs) : py bool :=
  if negb (len (_digits self) =? 14) then Return false
  else
    c0 <- getitem (_digits self) 0 ;;
    if str_eqb (_digits self) (str_mul c0 14) then Return false
    else _validate_check_digits self.

(** [CNPJ.validate] *)
Definition validate (cnpj : str) : py bool := is_valid (__init__ cnpj).

(** [CNPJ.generate] *)
Definition generate (formatted : bool) (g : rng) : py attrs * rng :=
  let (base_digits, g') := randint_list 0 9 12 g in
  (sum_first <- py_sum (fun i => b <- getitem base_digits i ;;
                                 w <- getitem weights_first i ;;
                                 Return (b * w)) (range 12) ;;
   let first_digit := sum_first mod 11 in
   let first_digit := if first_digit <? 2 then 0 else 11 - first_digit in
   let base_digits := base_digits ++ [first_digit] in
   sum_second <- py_sum (fun i => b <- getitem base_digits i ;;
                                  w <- getitem weights_second i ;;
                                  Return (b * w)) (range 13) ;;
   let second_digit := sum_second mod 11 in
   let second_digit := if second_digit <? 2 then 0 else 11 - second_digit in
   let base_digits := base_digits ++ [second_digit] in
   let cnpj_str := List.concat (map str_int base_digits) in
   let cnpj_obj := __init__ cnpj_str in
   Return cnpj_obj,
   g').

(** [CNPJ.__str__] *)
Definition __str__ (self : attrs) : py str :=
  match formatted self with
  | Raise (InvalidCNPJError _) => Return (_digits self)
  | r => r
  end.

(** [CNPJ.__repr__] *)
Definition __repr__ (self : attrs) : str :=
  lit "CNPJ('" ++ _original self ++ lit "')".

(** [CNPJ.__eq__] *)
Definition __eq__ (self : attrs) (other : object) : bool :=
  match other with
  | CNPJ_instance o => str_eqb (_digits self) (_digits o)
  | _ => false
  end.

Section Hash.
(** The built-in [hash] on strings. *)
Variable hash_str : str -> Z.

(** [CNPJ.__hash__] *)
Definition __hash__ (self : attrs) : Z := hash_str (_digits self).
End Hash.

End CNPJ.

(** ** The check digits, as the specification words them *)

(** The value of the digit at position [i] of a digit string. *)
Definition digit_val (d : str) (i : nat) : Z :=
  match nth_error d i with
  | Some c => match to_decimal c with Some v => v | None => 0 end
  | None => 0
  end.

(** The sum of [g i] over [i] in [[0, n)]. *)
Fixpoint sigma (g : nat -> Z) (n : nat) : Z :=
  match n with
  | O => 0
  | S k => sigma g k + g k
  end.

(** CPF: the digits at positions [[0, n)] weighted by [(n + 1 - i)], the
    sum times 10 modulo 11, and 10 mapped to 0. *)
Definition spec_cpf_check_digit (d : str) (n : nat) : Z :=
  let r := (sigma (fun i => digit_val d i * (Z.of_nat n + 1 - Z.of_nat i)) n * 10) mod 11 in
  if r =? 10 then 0 else r.

(** CNPJ: the digits at the positions of the weight table weighted by it,
    the sum modulo 11, 0 below 2 and [11 - r] otherwise. *)
Definition spec_cnpj_check_digit (d : str) (w : list Z) : Z :=
  let r := sigma (fun i => digit_val d i * nth i w 0) (List.length w) mod 11 in
  if r <? 2 then 0 else 11 - r.

Definition spec_w1 : list Z := [5; 4; 3; 2; 9; 8; 7; 6; 5; 4; 3; 2].
Definition spec_w2 : list Z := [6; 5; 4; 3; 2; 9; 8; 7; 6; 5; 4; 3; 2].

(** All the items of a list (the characters of a string) are one and the
    same. *)
Definition all_identical {A : Type} (d : list A) : Prop :=
  forall a b, In a d -> In b d -> a = b.

(** The character of the ASCII digit [k]. *)
Definition ascii_digit (k : Z) : char := Z.to_N (48 + k).

(** A character between '0' and '9'. *)
Definition is_ascii_digit (c : char) : Prop := (48 <= c <= 57)%N.

(** [t] is [s] with some characters removed, the others in their order. *)
Inductive subseq : str -> str -> Prop :=
| subseq_nil : subseq [] []
| subseq_skip : forall c t s, subseq t s -> subseq t (c :: s)
| subseq_keep : forall c t s, subseq t s -> subseq (c :: t) (c :: s).

(** Every character of the string is a decimal digit. *)
Definition all_decimal (d : str) : Prop := Forall (fun c => is_decimal c = true) d.

(** A number between 0 and 9. *)
Definition in_0_9 (x : Z) : Prop := 0 <= x <= 9.

(** The digits that [CPF.generate] appends to a payload. *)
Definition cpf_first (base : list Z) : Z :=
  let r := (sigma (fun k => nth k base 0 * (10 - Z.of_nat k)) 9 * 10) mod 11 in
  if r =? 10 then 0 else r.
Definition cpf_second (base : list Z) : Z :=
  let r := (sigma (fun k => nth k (base ++ [cpf_first base]) 0 * (11 - Z.of_nat k)) 10 * 10)
           mod 11 in
  if r =? 10 then 0 else r.
Definition cpf_full (base : list Z) : list Z :=
  (base ++ [cpf_first base]) ++ [cpf_second base].

(** The digits that [CNPJ.generate] appends to a payload. *)
Definition cnpj_first (base : list Z) : Z :=
  let r := sigma (fun k => nth k base 0 * nth k CNPJ.weights_first 0) 12 mod 11 in
  if r <? 2 then 0 else 11 - r.
Definition cnpj_second (base : list Z) : Z :=
  let r := sigma (fun k => nth k (base ++ [cnpj_first base]) 0 *
                           nth k CNPJ.weights_second 0) 13 mod 11 in
  if r <? 2 then 0 else 11 - r.
Definition cnpj_full (base : list Z) : list Z :=
  (base ++ [cnpj_first base]) ++ [cnpj_second base].

(** The character of the digit [k] in the run of decimal digits that
    starts at the zero [z]. *)
Definition script_digit (z : N) (k : Z) : char := (z + Z.to_N k)%N.

(** ** [brdoc/exceptions.py]

    The exception classes: [InvalidDocumentError(ValueError)],
    [InvalidCPFError(InvalidDocumentError)] and
    [InvalidCNPJError(InvalidDocumentError)], with the built-in classes
    they and [IndexError] derive from. *)
Inductive exn_class : Type :=
| cls_BaseException
| cls_Exception
| cls_LookupError
| cls_IndexError
| cls_ValueError
| cls_InvalidDocumentError
| cls_InvalidCPFError
| cls_InvalidCNPJError.

(** The base named in the [class] statement. *)
Definition class_base (c : exn_class) : option exn_class :=
  match c with
  | cls_BaseException => None
  | cls_Exception => Some cls_BaseException
  | cls_LookupError => Some cls_Exception
  | cls_IndexError => Some cls_LookupError
  | cls_ValueError => Some cls_Exception
  | cls_InvalidDocumentError => Some cls_ValueError
  | cls_InvalidCPFError => Some cls_InvalidDocumentError
  | cls_InvalidCNPJError => Some cls_InvalidDocumentError
  end.

Definition exn_class_eqb (c d : exn_class) : bool :=
  match c, d with
  | cls_BaseException, cls_BaseException
  | cls_Exception, cls_Exception
  | cls_LookupError, cls_LookupError
  | cls_IndexError, cls_IndexError
  | cls_ValueError, cls_ValueError
  | cls_InvalidDocumentError, cls_InvalidDocumentError
  | cls_InvalidCPFError, cls_InvalidCPFError
  | cls_InvalidCNPJError, cls_InvalidCNPJError => true
  | _, _ => false
  end.

(** [issubclass(c, d)]: [d] is [c] or is reached from [c] through the
    bases; no chain is longer than eight classes. *)
Fixpoint issubclass_upto (n : nat) (c d : exn_class) : bool :=
  exn_class_eqb c d ||
  match n with
  | O => false
  | S n' => match class_base c with
            | Some b => issubclass_upto n' b d
            | None => false
            end
  end.
Definition issubclass (c d : exn_class) : bool := issubclass_upto 8 c d.

(** [type(e)] *)
Definition type_of (e : exn) : exn_class :=
  match e with
  | IndexError => cls_IndexError
  | ValueError => cls_ValueError
  | InvalidCPFError _ => cls_InvalidCPFError
  | InvalidCNPJError _ => cls_InvalidCNPJError
  end.

(** [isinstance(e, c)], the test of an [except c] clause. *)
Definition isinstance (e : exn) (c : exn_class) : bool := issubclass (type_of e) c.

(** [try: body except c: handler] *)
Definition try_except {A : Type} (body : py A) (c : exn_class) (handler : py A) : py A :=
  match body with
  | Return a => Return a
  | Raise e => if isinstance e c then handler else Raise e
  end.

(** * Properties *)

(** ** Strings, indexing and sums *)

Lemma Return_inj {A : Type} (a b : A) : Return a = Return b -> a = b.
Proof. intros H. now injection H. Qed.

Lemma str_eqb_eq (a b : str) : str_eqb a b = true <-> a = b.
Proof.
  revert b; induction a as [|x a IH]; intros [|y b]; simpl; split;
    try congruence; try reflexivity.
  - intros H. apply andb_true_iff in H as [Hx Hr].
    apply N.eqb_eq in Hx. apply IH in Hr. congruence.
  - intros H. injection H as -> ->.
    rewrite N.eqb_refl. simpl. now apply IH.
Qed.

Lemma getitem_of_nat {A : Type} (l : list A) (k : nat) (x : A) :
  nth_error l k = Some x -> getitem l (Z.of_nat k) = Return x.
Proof.
  intros H. unfold getitem.
  assert (E : (Z.of_nat k <? 0) = false) by (apply Z.ltb_ge; lia).
  cbv zeta. rewrite E. cbv iota. rewrite E, Nat2Z.id, H. reflexivity.
Qed.

Lemma sum_loop_app (f : Z -> py Z) (a b : list Z) (acc : Z) :
  sum_loop f (a ++ b) acc = (x <- sum_loop f a acc ;; sum_loop f b x).
Proof.
  revert acc; induction a as [|i a IH]; intros acc; simpl; [reflexivity|].
  destruct (f i); simpl; [apply IH | reflexivity].
Qed.

Lemma sum_loop_range (f : Z -> py Z) (g : nat -> Z) (n : nat) :
  (forall k, (k < n)%nat -> f (Z.of_nat k) = Return (g k)) ->
  py_sum f (range n) = Return (sigma g n).
Proof.
  unfold py_sum, range. induction n as [|n IH]; intros H; [reflexivity|].
  rewrite seq_S, map_app, sum_loop_app, IH by (intros; apply H; lia).
  simpl. rewrite H by lia. reflexivity.
Qed.

Lemma sigma_ext (g h : nat -> Z) (n : nat) :
  (forall k, (k < n)%nat -> g k = h k) -> sigma g n = sigma h n.
Proof.
  induction n as [|n IH]; intros H; simpl; [reflexivity|].
  rewrite IH, H by (intros; try apply H; lia). reflexivity.
Qed.

(** ** Decimal digits *)

Lemma lookup_decimal_range (zeros : list N) (c : char) (v : Z) :
  lookup_decimal zeros c = Some v -> 0 <= v <= 9.
Proof.
  induction zeros as [|z zeros IH]; simpl; [discriminate|].
  destruct (N.leb z c && N.ltb c (z + 10))%N eqn:E; [|exact IH].
  apply andb_true_iff in E as [E1 E2].
  apply N.leb_le in E1. apply N.ltb_lt in E2.
  intros H; injection H as <-. lia.
Qed.

Lemma to_decimal_range (c : char) (v : Z) : to_decimal c = Some v -> 0 <= v <= 9.
Proof. apply lookup_decimal_range. Qed.

Lemma to_decimal_ascii_digit (k : Z) :
  0 <= k <= 9 -> to_decimal (ascii_digit k) = Some k.
Proof.
  intros H.
  assert (E : k = 0 \/ k = 1 \/ k = 2 \/ k = 3 \/ k = 4 \/
              k = 5 \/ k = 6 \/ k = 7 \/ k = 8 \/ k = 9) by lia.
  repeat (destruct E as [-> | E]; [reflexivity|]). subst k; reflexivity.
Qed.

Lemma is_decimal_ascii_digit (k : Z) : 0 <= k <= 9 -> is_decimal (ascii_digit k) = true.
Proof. intros H. unfold is_decimal. now rewrite to_decimal_ascii_digit. Qed.

Lemma str_int_digit (k : Z) : 0 <= k <= 9 -> str_int k = [ascii_digit k].
Proof.
  intros H.
  assert (E : k = 0 \/ k = 1 \/ k = 2 \/ k = 3 \/ k = 4 \/
              k = 5 \/ k = 6 \/ k = 7 \/ k = 8 \/ k = 9) by lia.
  repeat (destruct E as [-> | E]; [reflexivity|]). subst k; reflexivity.
Qed.

Lemma is_ascii_digit_decimal (c : char) : is_ascii_digit c -> is_decimal c = true.
Proof.
  intros [H1 H2]. unfold is_decimal, to_decimal, decimal_zeros.
  cbn [lookup_decimal].
  destruct (N.leb 48 c && N.ltb c (48 + 10))%N eqn:E; [reflexivity|].
  apply andb_false_iff in E as [E | E];
    [apply N.leb_gt in E | apply N.ltb_ge in E]; lia.
Qed.

(** Reading a digit: [int(d[i])] is the value of the digit at [i]. *)
Lemma int_getitem {B : Type} (d : str) (i : Z) (K : Z -> py B) :
  all_decimal d -> 0 <= i < len d ->
  (c <- getitem d i ;; v <- int_char c ;; K v) = K (digit_val d (Z.to_nat i)).
Proof.
  intros Hd Hi. unfold len in Hi.
  destruct (nth_error d (Z.to_nat i)) as [c|] eqn:E;
    [|apply nth_error_None in E; lia].
  rewrite <- (Z2Nat.id i) at 1 by lia.
  rewrite (getitem_of_nat _ _ _ E). simpl.
  unfold all_decimal in Hd. rewrite Forall_forall in Hd.
  specialize (Hd c (nth_error_In _ _ E)).
  unfold digit_val. rewrite E.
  unfold is_decimal in Hd. unfold int_char.
  destruct (to_decimal c); [reflexivity | discriminate].
Qed.

(** ** The check digits of a digit string of the right length *)

Lemma cpf_sum (d : str) (n : nat) :
  all_decimal d -> (n <= List.length d)%nat ->
  py_sum (fun i => c <- getitem d i ;; v <- int_char c ;;
                   Return (v * (Z.of_nat n + 1 - i))) (range n)
  = Return (sigma (fun i => digit_val d i * (Z.of_nat n + 1 - Z.of_nat i)) n).
Proof.
  intros Hd Hn. apply sum_loop_range. intros k Hk.
  rewrite int_getitem by (unfold len; assumption || lia).
  now rewrite Nat2Z.id.
Qed.

Lemma cpf_validate_check_digits_eq (self : attrs) :
  List.length (_digits self) = 11%nat -> all_decimal (_digits self) ->
  CPF._validate_check_digits self
  = Return ((digit_val (_digits self) 9 =? spec_cpf_check_digit (_digits self) 9) &&
            (digit_val (_digits self) 10 =? spec_cpf_check_digit (_digits self) 10)).
Proof.
  intros Hl Hd. unfold CPF._validate_check_digits.
  pose proof (cpf_sum (_digits self) 9 Hd ltac:(lia)) as S1.
  pose proof (cpf_sum (_digits self) 10 Hd ltac:(lia)) as S2.
  change (Z.of_nat 9 + 1) with 10 in S1. change (Z.of_nat 10 + 1) with 11 in S2.
  rewrite S1. cbn [bind].
  rewrite (int_getitem (_digits self) 9) by (unfold len; assumption || lia).
  change (Z.to_nat 9) with 9%nat.
  unfold spec_cpf_check_digit.
  change (Z.of_nat 9 + 1) with 10. change (Z.of_nat 10 + 1) with 11. cbv zeta.
  destruct (digit_val (_digits self) 9 =? _) eqn:E1; cbn [negb andb]; [|reflexivity].
  rewrite S2. cbn [bind].
  rewrite (int_getitem (_digits self) 10) by (unfold len; assumption || lia).
  reflexivity.
Qed.

Lemma getitem_nth {A : Type} (l : list A) (k : nat) (x : A) :
  (k < List.length l)%nat -> getitem l (Z.of_nat k) = Return (nth k l x).
Proof.
  intros H. apply getitem_of_nat. now apply nth_error_nth'.
Qed.

Lemma cnpj_sum (d : str) (w : list Z) :
  all_decimal d -> (List.length w <= List.length d)%nat ->
  py_sum (fun i => c <- getitem d i ;; v <- int_char c ;;
                   x <- getitem w i ;; Return (v * x)) (range (List.length w))
  = Return (sigma (fun i => digit_val d i * nth i w 0) (List.length w)).
Proof.
  intros Hd Hn. apply sum_loop_range. intros k Hk.
  rewrite int_getitem by (unfold len; assumption || lia).
  rewrite Nat2Z.id, (getitem_nth w k 0) by assumption.
  reflexivity.
Qed.

Lemma cnpj_validate_check_digits_eq (self : attrs) :
  List.length (_digits self) = 14%nat -> all_decimal (_digits self) ->
  CNPJ._validate_check_digits self
  = Return ((digit_val (_digits self) 12 =? spec_cnpj_check_digit (_digits self) spec_w1) &&
            (digit_val (_digits self) 13 =? spec_cnpj_check_digit (_digits self) spec_w2)).
Proof.
  intros Hl Hd. unfold CNPJ._validate_check_digits.
  pose proof (cnpj_sum (_digits self) CNPJ.weights_first Hd) as S1.
  pose proof (cnpj_sum (_digits self) CNPJ.weights_second Hd) as S2.
  change (List.length CNPJ.weights_first) with 12%nat in S1.
  change (List.length CNPJ.weights_second) with 13%nat in S2.
  rewrite S1 by lia. cbn [bind].
  rewrite (int_getitem (_digits self) 12) by (unfold len; assumption || lia).
  change (Z.to_nat 12) with 12%nat.
  unfold spec_cnpj_check_digit.
  change (List.length spec_w1) with 12%nat.
  change (List.length spec_w2) with 13%nat.
  change spec_w1 with CNPJ.weights_first.
  change spec_w2 with CNPJ.weights_second. cbv zeta.
  destruct (digit_val (_digits self) 12 =? _) eqn:E1; cbn [negb andb]; [|reflexivity].
  rewrite S2 by lia. cbn [bind].
  rewrite (int_getitem (_digits self) 13) by (unfold len; assumption || lia).
  reflexivity.
Qed.

(** ** Cleaning *)

Lemma clean_all_decimal (s : str) : all_decimal (re_sub_nondigit s).
Proof.
  unfold all_decimal, re_sub_nondigit. apply Forall_forall.
  intros c Hc. now apply filter_In in Hc.
Qed.

Lemma clean_fixed (d : str) : all_decimal d -> re_sub_nondigit d = d.
Proof.
  unfold all_decimal, re_sub_nondigit.
  induction 1 as [|c d Hc _ IH]; simpl; [reflexivity|].
  now rewrite Hc, IH.
Qed.

Lemma clean_app (a b : str) :
  re_sub_nondigit (a ++ b) = re_sub_nondigit a ++ re_sub_nondigit b.
Proof. apply filter_app. Qed.

Lemma clean_subseq (s : str) : subseq (re_sub_nondigit s) s.
Proof.
  unfold re_sub_nondigit. induction s as [|c s IH]; simpl; [constructor|].
  destruct (is_decimal c); now constructor.
Qed.

Lemma subseq_clean (t s : str) :
  subseq t s -> subseq (re_sub_nondigit t) (re_sub_nondigit s).
Proof.
  unfold re_sub_nondigit. induction 1 as [|c t s _ IH|c t s _ IH]; simpl.
  - constructor.
  - destruct (is_decimal c); [now constructor | exact IH].
  - destruct (is_decimal c); [now constructor | exact IH].
Qed.

(** Cutting a string at increasing positions loses nothing. *)
Lemma slice_from_split {A : Type} (s : list A) (lo hi : nat) :
  (lo <= hi)%nat -> slice s lo hi ++ slice_from s hi = slice_from s lo.
Proof.
  intros H. unfold slice, slice_from.
  replace (skipn hi s) with (skipn (hi - lo) (skipn lo s))
    by (rewrite skipn_skipn; f_equal; lia).
  apply firstn_skipn.
Qed.

Lemma slice_to_split {A : Type} (s : list A) (hi : nat) :
  slice_to s hi ++ slice_from s hi = s.
Proof. apply firstn_skipn. Qed.

(** ** The validity predicate *)

Lemma all_identical_repeat {A : Type} (c : A) (n : nat) : all_identical (repeat c n).
Proof.
  intros a b Ha Hb. apply repeat_spec in Ha, Hb. congruence.
Qed.

Lemma all_identical_cons {A : Type} (c : A) (d : list A) :
  all_identical (c :: d) -> c :: d = repeat c (List.length (c :: d)).
Proof.
  intros H. apply Forall_eq_repeat, Forall_forall.
  intros x Hx. apply H; [now left | exact Hx].
Qed.

(** The test [digits == digits[0] * n] on a string of [n] characters. *)
Lemma same_digits_test (d : str) (n : nat) :
  List.length d = S n ->
  exists c0, getitem d 0 = Return c0 /\
             (str_eqb d (str_mul c0 (Z.of_nat (S n))) = true <-> all_identical d).
Proof.
  intros Hl. destruct d as [|c0 d]; [discriminate|].
  exists c0. split; [reflexivity|].
  unfold str_mul. rewrite Nat2Z.id, str_eqb_eq. split.
  - intros ->. apply all_identical_repeat.
  - intros H. rewrite <- Hl. now apply all_identical_cons.
Qed.

Lemma len_eqb {A : Type} (l : list A) (n : nat) :
  (len l =? Z.of_nat n) = (List.length l =? n)%nat.
Proof.
  unfold len. destruct (Nat.eqb_spec (List.length l) n) as [E|E].
  - apply Z.eqb_eq. lia.
  - apply Z.eqb_neq. lia.
Qed.

Lemma cpf_is_valid_spec (self : attrs) :
  all_decimal (_digits self) ->
  exists b, CPF.is_valid self = Return b /\
    (b = true <->
     len (_digits self) = 11 /\
     ~ all_identical (_digits self) /\
     digit_val (_digits self) 9 = spec_cpf_check_digit (_digits self) 9 /\
     digit_val (_digits self) 10 = spec_cpf_check_digit (_digits self) 10).
Proof.
  intros Hd. unfold CPF.is_valid.
  change 11 with (Z.of_nat 11). rewrite len_eqb.
  destruct (Nat.eqb_spec (List.length (_digits self)) 11) as [Hl|Hl]; cbn [negb].
  - destruct (same_digits_test _ 10 Hl) as (c0 & -> & Hsame). cbn [bind].
    destruct (str_eqb _ _) eqn:E.
    + exists false. split; [reflexivity|]. split; [discriminate|].
      intros (_ & Hn & _). exfalso. apply Hn, Hsame. reflexivity.
    + rewrite (cpf_validate_check_digits_eq self Hl Hd).
      eexists. split; [reflexivity|].
      rewrite andb_true_iff, !Z.eqb_eq. unfold len. split.
      * intros [H1 H2]. repeat split; try assumption; [lia|].
        intros Hs. apply Hsame in Hs. congruence.
      * intros (_ & _ & H1 & H2). now split.
  - exists false. split; [reflexivity|]. split; [discriminate|].
    unfold len. intros (H & _). lia.
Qed.

Lemma cnpj_is_valid_spec (self : attrs) :
  all_decimal (_digits self) ->
  exists b, CNPJ.is_valid self = Return b /\
    (b = true <->
     len (_digits self) = 14 /\
     ~ all_identical (_digits self) /\
     digit_val (_digits self) 12 = spec_cnpj_check_digit (_digits self) spec_w1 /\
     digit_val (_digits self) 13 = spec_cnpj_check_digit (_digits self) spec_w2).
Proof.
  intros Hd. unfold CNPJ.is_valid.
  change 14 with (Z.of_nat 14). rewrite len_eqb.
  destruct (Nat.eqb_spec (List.length (_digits self)) 14) as [Hl|Hl]; cbn [negb].
  - destruct (same_digits_test _ 13 Hl) as (c0 & -> & Hsame). cbn [bind].
    destruct (str_eqb _ _) eqn:E.
    + exists false. split; [reflexivity|]. split; [discriminate|].
      intros (_ & Hn & _). exfalso. apply Hn, Hsame. reflexivity.
    + rewrite (cnpj_validate_check_digits_eq self Hl Hd).
      eexists. split; [reflexivity|].
      rewrite andb_true_iff, !Z.eqb_eq. unfold len. split.
      * intros [H1 H2]. repeat split; try assumption; [lia|].
        intros Hs. apply Hsame in Hs. congruence.
      * intros (_ & _ & H1 & H2). now split.
  - exists false. split; [reflexivity|]. split; [discriminate|].
    unfold len. intros (H & _). lia.
Qed.

(** A string of identical characters is never valid, whatever its
    length and whatever the character. *)
Lemma cpf_identical_invalid (self : attrs) :
  all_decimal (_digits self) -> all_identical (_digits self) ->
  CPF.is_valid self = Return false.
Proof.
  intros Hd Hs. destruct (cpf_is_valid_spec self Hd) as (b & -> & Hb).
  destruct b; [|reflexivity].
  destruct Hb as [Hb _]. destruct (Hb eq_refl) as (_ & Hn & _). contradiction.
Qed.

Lemma cnpj_identical_invalid (self : attrs) :
  all_decimal (_digits self) -> all_identical (_digits self) ->
  CNPJ.is_valid self = Return false.
Proof.
  intros Hd Hs. destruct (cnpj_is_valid_spec self Hd) as (b & -> & Hb).
  destruct b; [|reflexivity].
  destruct Hb as [Hb _]. destruct (Hb eq_refl) as (_ & Hn & _). contradiction.
Qed.

Lemma clean_repeat_digit (k : Z) (n : nat) :
  0 <= k <= 9 -> re_sub_nondigit (repeat (ascii_digit k) n) = repeat (ascii_digit k) n.
Proof.
  intros H. apply clean_fixed. apply Forall_forall.
  intros c Hc. apply repeat_spec in Hc. subst c.
  now apply is_decimal_ascii_digit.
Qed.

(** ** Validity and check digits *)

(** C2: for every input string, [is_valid()] returns, and returns true
    exactly when the cleaned digits have the kind's total length (11 for
    CPF, 14 for CNPJ), are not all one identical character, and carry the
    two check digits of the checksum algorithm.  The checks run in this
    order and stop at the first that fails: with a wrong length the answer
    is false although indexing the digits would raise (as on the empty
    string), and with identical characters it is false whatever the
    checksum.  For every digit [k] in 0-9, the string of 11 (or 14) copies
    of [k] is not valid. *)
Theorem is_valid_iff_length_distinct_checksum (s : str) (k : Z) :
  0 <= k <= 9 ->
  (exists b, CPF.is_valid (CPF.__init__ s) = Return b /\
     (b = true <->
      len (CPF.digits (CPF.__init__ s)) = 11 /\
      ~ all_identical (CPF.digits (CPF.__init__ s)) /\
      digit_val (CPF.digits (CPF.__init__ s)) 9
        = spec_cpf_check_digit (CPF.digits (CPF.__init__ s)) 9 /\
      digit_val (CPF.digits (CPF.__init__ s)) 10
        = spec_cpf_check_digit (CPF.digits (CPF.__init__ s)) 10)) /\
  (exists b, CNPJ.is_valid (CNPJ.__init__ s) = Return b /\
     (b = true <->
      len (CNPJ.digits (CNPJ.__init__ s)) = 14 /\
      ~ all_identical (CNPJ.digits (CNPJ.__init__ s)) /\
      digit_val (CNPJ.digits (CNPJ.__init__ s)) 12
        = spec_cnpj_check_digit (CNPJ.digits (CNPJ.__init__ s)) spec_w1 /\
      digit_val (CNPJ.digits (CNPJ.__init__ s)) 13
        = spec_cnpj_check_digit (CNPJ.digits (CNPJ.__init__ s)) spec_w2)) /\
  (len (CPF.digits (CPF.__init__ s)) <> 11 ->
   CPF.is_valid (CPF.__init__ s) = Return false) /\
  (len (CNPJ.digits (CNPJ.__init__ s)) <> 14 ->
   CNPJ.is_valid (CNPJ.__init__ s) = Return false) /\
  (all_identical (CPF.digits (CPF.__init__ s)) ->
   CPF.is_valid (CPF.__init__ s) = Return false) /\
  (all_identical (CNPJ.digits (CNPJ.__init__ s)) ->
   CNPJ.is_valid (CNPJ.__init__ s) = Return false) /\
  (CPF.is_valid (CPF.__init__ (lit "")) = Return false /\
   getitem (CPF.digits (CPF.__init__ (lit ""))) 0 = Raise IndexError /\
   CPF._validate_check_digits (CPF.__init__ (lit "")) = Raise IndexError) /\
  (CNPJ.is_valid (CNPJ.__init__ (lit "")) = Return false /\
   getitem (CNPJ.digits (CNPJ.__init__ (lit ""))) 0 = Raise IndexError /\
   CNPJ._validate_check_digits (CNPJ.__init__ (lit "")) = Raise IndexError) /\
  CPF.is_valid (CPF.__init__ (repeat (ascii_digit k) 11)) = Return false /\
  CNPJ.is_valid (CNPJ.__init__ (repeat (ascii_digit k) 14)) = Return false.
Proof.
  intros Hk.
  pose proof (cpf_is_valid_spec (CPF.__init__ s) (clean_all_decimal s)) as HP.
  pose proof (cnpj_is_valid_spec (CNPJ.__init__ s) (clean_all_decimal s)) as HN.
  split; [exact HP|]. split; [exact HN|].
  split.
  { intros Hl. destruct HP as (b & -> & Hb). destruct b; [|reflexivity].
    exfalso. apply Hl. now apply Hb. }
  split.
  { intros Hl. destruct HN as (b & -> & Hb). destruct b; [|reflexivity].
    exfalso. apply Hl. now apply Hb. }
  split; [apply cpf_identical_invalid, clean_all_decimal|].
  split; [apply cnpj_identical_invalid, clean_all_decimal|].
  split; [repeat split|]. split; [repeat split|].
  split.
  - apply cpf_identical_invalid; [apply clean_all_decimal|].
    cbn [_digits CPF.__init__]. unfold CPF._clean.
    rewrite clean_repeat_digit by assumption. apply all_identical_repeat.
  - apply cnpj_identical_invalid; [apply clean_all_decimal|].
    cbn [_digits CNPJ.__init__]. unfold CNPJ._clean.
    rewrite clean_repeat_digit by assumption. apply all_identical_repeat.
Qed.

Lemma is_valid_iff_length_distinct_checksum_witness :
  0 <= 7 <= 9 /\
  CPF.is_valid (CPF.__init__ (repeat (ascii_digit 7) 11)) = Return false /\
  CNPJ.is_valid (CNPJ.__init__ (repeat (ascii_digit 7) 14)) = Return false.
Proof.
  split; [lia|].
  apply (is_valid_iff_length_distinct_checksum (lit "111.444.777-35") 7).
  lia.
Defined.

(** C3: for every CPF string of 11 digits, the verification of the check
    digits returns true exactly when the digit at index 9 is the sum of
    [d[i] * (10 - i)] over [i] in [[0, 9)], times 10, modulo 11, with 10
    mapped to 0, and the digit at index 10 is the sum of [d[i] * (11 - i)]
    over [i] in [[0, 10)] (which includes the digit at index 9), times 10,
    modulo 11, with 10 mapped to 0. *)
Theorem cpf_check_digits_iff (self : attrs) :
  List.length (_digits self) = 11%nat ->
  all_decimal (_digits self) ->
  exists b, CPF._validate_check_digits self = Return b /\
    (b = true <->
     digit_val (_digits self) 9
       = (let r := (sigma (fun i => digit_val (_digits self) i * (10 - Z.of_nat i)) 9 * 10)
                   mod 11 in
          if r =? 10 then 0 else r) /\
     digit_val (_digits self) 10
       = (let r := (sigma (fun i => digit_val (_digits self) i * (11 - Z.of_nat i)) 10 * 10)
                   mod 11 in
          if r =? 10 then 0 else r)).
Proof.
  intros Hl Hd. rewrite (cpf_validate_check_digits_eq self Hl Hd).
  eexists. split; [reflexivity|].
  rewrite andb_true_iff, !Z.eqb_eq. reflexivity.
Qed.

Lemma cpf_check_digits_iff_witness :
  exists b, CPF._validate_check_digits (CPF.__init__ (lit "111.444.777-35")) = Return b /\
    (b = true <->
     digit_val (lit "11144477735") 9 = 3 /\ digit_val (lit "11144477735") 10 = 5).
Proof.
  apply (cpf_check_digits_iff (CPF.__init__ (lit "111.444.777-35"))).
  - reflexivity.
  - apply clean_all_decimal.
Defined.

(** C4: for every CNPJ string of 14 digits, the verification of the check
    digits returns true exactly when the digit at index 12 is the value
    obtained from [r], the sum of [d[i] * w1[i]] over [i] in [[0, 12)]
    modulo 11 with [w1 = [5,4,3,2,9,8,7,6,5,4,3,2]], as 0 when [r < 2] and
    [11 - r] otherwise, and the digit at index 13 is the same with
    [w2 = [6,5,4,3,2,9,8,7,6,5,4,3,2]] over the positions 0..12. *)
Theorem cnpj_check_digits_iff (self : attrs) :
  List.length (_digits self) = 14%nat ->
  all_decimal (_digits self) ->
  exists b, CNPJ._validate_check_digits self = Return b /\
    (b = true <->
     digit_val (_digits self) 12
       = (let r := sigma (fun i => digit_val (_digits self) i *
                                   nth i [5; 4; 3; 2; 9; 8; 7; 6; 5; 4; 3; 2] 0) 12
                   mod 11 in
          if r <? 2 then 0 else 11 - r) /\
     digit_val (_digits self) 13
       = (let r := sigma (fun i => digit_val (_digits self) i *
                                   nth i [6; 5; 4; 3; 2; 9; 8; 7; 6; 5; 4; 3; 2] 0) 13
                   mod 11 in
          if r <? 2 then 0 else 11 - r)).
Proof.
  intros Hl Hd. rewrite (cnpj_validate_check_digits_eq self Hl Hd).
  eexists. split; [reflexivity|].
  rewrite andb_true_iff, !Z.eqb_eq. reflexivity.
Qed.

Lemma cnpj_check_digits_iff_witness :
  exists b, CNPJ._validate_check_digits (CNPJ.__init__ (lit "11.222.333/0001-81")) = Return b /\
    (b = true <->
     digit_val (lit "11222333000181") 12 = 8 /\ digit_val (lit "11222333000181") 13 = 1).
Proof.
  apply (cnpj_check_digits_iff (CNPJ.__init__ (lit "11.222.333/0001-81"))).
  - reflexivity.
  - apply clean_all_decimal.
Defined.

(** C9: the concrete vectors: "111.444.777-35" is a valid CPF and
    "111.444.777-36" is not; "11.222.333/0001-81" is a valid CNPJ and
    "11.222.333/0001-82" is not; the empty string is not a valid CPF; the
    digits of the CNPJ built from "11ABC222DEF333GHI0001IJK81" are
    "11222333000181". *)
Theorem concrete_vectors :
  CPF.is_valid (CPF.__init__ (lit "111.444.777-35")) = Return true /\
  CPF.is_valid (CPF.__init__ (lit "111.444.777-36")) = Return false /\
  CNPJ.is_valid (CNPJ.__init__ (lit "11.222.333/0001-81")) = Return true /\
  CNPJ.is_valid (CNPJ.__init__ (lit "11.222.333/0001-82")) = Return false /\
  CPF.is_valid (CPF.__init__ (lit "")) = Return false /\
  CNPJ.digits (CNPJ.__init__ (lit "11ABC222DEF333GHI0001IJK81")) = lit "11222333000181".
Proof. repeat split; vm_compute; reflexivity. Qed.

(** ** Cleaning, equality and formatting *)

(** C6, as the code has it: constructing a CPF or a CNPJ from any string
    succeeds, and its digits are the characters of the input that have a
    decimal digit value, in their order: each of them is a decimal digit,
    they form a subsequence of the input, and every subsequence of the
    input made of decimal digits is a subsequence of them.  The characters
    '0'-'9' are decimal digits and are kept; when the input has no decimal
    digit outside '0'-'9', the digits are all in '0'-'9'.  The result may
    be empty. *)
Theorem digits_are_the_decimal_characters (s : str) :
  CNPJ.digits (CNPJ.__init__ s) = CPF.digits (CPF.__init__ s) /\
  all_decimal (CPF.digits (CPF.__init__ s)) /\
  subseq (CPF.digits (CPF.__init__ s)) s /\
  (forall t, subseq t s -> all_decimal t -> subseq t (CPF.digits (CPF.__init__ s))) /\
  (forall c, In c (CPF.digits (CPF.__init__ s)) <-> In c s /\ is_decimal c = true) /\
  (forall c, is_ascii_digit c -> is_decimal c = true) /\
  (Forall (fun c => is_decimal c = true -> is_ascii_digit c) s ->
   Forall is_ascii_digit (CPF.digits (CPF.__init__ s))) /\
  CPF.digits (CPF.__init__ (lit "abc")) = [].
Proof.
  split; [reflexivity|].
  split; [apply clean_all_decimal|].
  split; [apply clean_subseq|].
  split.
  { intros t Ht Hd. rewrite <- (clean_fixed t Hd). now apply subseq_clean. }
  split; [intros c; apply filter_In|].
  split; [exact is_ascii_digit_decimal|].
  split; [|reflexivity].
  rewrite !Forall_forall. intros H c Hc.
  apply filter_In in Hc as [Hin Hc]. now apply H.
Qed.

(** C6, as stated, fails: the digits of a document built from the
    Arabic-Indic digit zero (U+0660) hold that character, which is not
    one of '0'-'9'. *)
Lemma digits_not_only_ascii :
  CPF.digits (CPF.__init__ [1632%N]) = [1632%N] /\
  CNPJ.digits (CNPJ.__init__ [1632%N]) = [1632%N] /\
  ~ Forall is_ascii_digit (CPF.digits (CPF.__init__ [1632%N])) /\
  ~ Forall is_ascii_digit (CNPJ.digits (CNPJ.__init__ [1632%N])).
Proof.
  split; [reflexivity|]. split; [reflexivity|].
  split; intros H; inversion H as [|c l [H1 H2] Hl]; subst;
    apply N.leb_le in H2; discriminate.
Qed.

(** C7: two documents of the same kind compare equal exactly when their
    digits are equal, whatever the strings they were built from; a
    document never equals a value of another type; the hash is the hash
    of the digits, so equal documents have the same hash. *)
Theorem eq_iff_digits_and_hash (hash_str : str -> Z) (a b : attrs) :
  (CPF.__eq__ a (CPF_instance b) = true <-> CPF.digits a = CPF.digits b) /\
  (CNPJ.__eq__ a (CNPJ_instance b) = true <-> CNPJ.digits a = CNPJ.digits b) /\
  CPF.__eq__ a (CNPJ_instance b) = false /\
  CNPJ.__eq__ a (CPF_instance b) = false /\
  CPF.__hash__ hash_str a = hash_str (CPF.digits a) /\
  CNPJ.__hash__ hash_str a = hash_str (CNPJ.digits a) /\
  (CPF.__eq__ a (CPF_instance b) = true ->
   CPF.__hash__ hash_str a = CPF.__hash__ hash_str b) /\
  (CNPJ.__eq__ a (CNPJ_instance b) = true ->
   CNPJ.__hash__ hash_str a = CNPJ.__hash__ hash_str b) /\
  CPF.__eq__ (CPF.__init__ (lit "111.444.777-35"))
             (CPF_instance (CPF.__init__ (lit "11144477735"))) = true /\
  CPF.__hash__ hash_str (CPF.__init__ (lit "111.444.777-35"))
  = CPF.__hash__ hash_str (CPF.__init__ (lit "11144477735")).
Proof.
  unfold CPF.__eq__, CNPJ.__eq__, CPF.__hash__, CNPJ.__hash__, CPF.digits, CNPJ.digits.
  repeat split; try (apply str_eqb_eq; assumption);
    try (intros H; apply str_eqb_eq in H; now rewrite H).
Qed.

(** Formatting a string of digits and cleaning the result gives the
    string back. *)
Lemma cpf_clean_formatted (d : str) :
  all_decimal d ->
  re_sub_nondigit (slice_to d 3 ++ lit "." ++ slice d 3 6 ++ lit "." ++
                   slice d 6 9 ++ lit "-" ++ slice_from d 9) = d.
Proof.
  intros Hd. rewrite !clean_app.
  change (re_sub_nondigit (lit ".")) with (@nil char).
  change (re_sub_nondigit (lit "-")) with (@nil char).
  rewrite !app_nil_l, <- !clean_app.
  rewrite !slice_from_split, slice_to_split by lia.
  now apply clean_fixed.
Qed.

Lemma cnpj_clean_formatted (d : str) :
  all_decimal d ->
  re_sub_nondigit (slice_to d 2 ++ lit "." ++ slice d 2 5 ++ lit "." ++
                   slice d 5 8 ++ lit "/" ++ slice d 8 12 ++ lit "-" ++
                   slice_from d 12) = d.
Proof.
  intros Hd. rewrite !clean_app.
  change (re_sub_nondigit (lit ".")) with (@nil char).
  change (re_sub_nondigit (lit "/")) with (@nil char).
  change (re_sub_nondigit (lit "-")) with (@nil char).
  rewrite !app_nil_l, <- !clean_app.
  rewrite !slice_from_split, slice_to_split by lia.
  now apply clean_fixed.
Qed.

(** C8: for a document whose digits have the right length, [formatted]
    succeeds, and a new document of the same kind built from the formatted
    string has the same digits. *)
Theorem formatted_then_clean_is_identity (s1 s2 : str) :
  len (CPF.digits (CPF.__init__ s1)) = 11 ->
  len (CNPJ.digits (CNPJ.__init__ s2)) = 14 ->
  (exists f, CPF.formatted (CPF.__init__ s1) = Return f /\
             CPF.digits (CPF.__init__ f) = CPF.digits (CPF.__init__ s1)) /\
  (exists f, CNPJ.formatted (CNPJ.__init__ s2) = Return f /\
             CNPJ.digits (CNPJ.__init__ f) = CNPJ.digits (CNPJ.__init__ s2)).
Proof.
  intros H1 H2. split.
  - unfold CPF.formatted, CPF.digits in *. rewrite H1. cbn [Z.eqb Pos.eqb negb].
    eexists. split; [reflexivity|].
    apply cpf_clean_formatted, clean_all_decimal.
  - unfold CNPJ.formatted, CNPJ.digits in *. rewrite H2. cbn [Z.eqb Pos.eqb negb].
    eexists. split; [reflexivity|].
    apply cnpj_clean_formatted, clean_all_decimal.
Qed.

Lemma formatted_then_clean_is_identity_witness :
  (exists f, CPF.formatted (CPF.__init__ (lit "111 444 777 35")) = Return f /\
             CPF.digits (CPF.__init__ f) = CPF.digits (CPF.__init__ (lit "111 444 777 35"))) /\
  (exists f, CNPJ.formatted (CNPJ.__init__ (lit "11222333000181")) = Return f /\
             CNPJ.digits (CNPJ.__init__ f) = CNPJ.digits (CNPJ.__init__ (lit "11222333000181"))).
Proof.
  apply (formatted_then_clean_is_identity (lit "111 444 777 35") (lit "11222333000181"));
    reflexivity.
Defined.

(** C10: the [formatted] parameter of [generate] has no effect: on the
    same random source both values of the parameter give the same
    document and leave the source in the same state. *)
Theorem generate_ignores_formatted (f1 f2 : bool) (g : rng) :
  CPF.generate f1 g = CPF.generate f2 g /\
  CNPJ.generate f1 g = CNPJ.generate f2 g /\
  CPF.generate true g = CPF.generate false g /\
  CNPJ.generate true g = CNPJ.generate false g.
Proof. repeat split. Qed.

(** ** The generator *)

Lemma randint_list_spec (a b : Z) (n : nat) (g : rng) :
  a <= b ->
  List.length (fst (randint_list a b n g)) = n /\
  Forall (fun x => a <= x <= b) (fst (randint_list a b n g)).
Proof.
  intros Hab. revert g. induction n as [|n IH]; intros g; simpl.
  - split; [reflexivity | constructor].
  - destruct (randint_list a b n (fun k => g (S k))) as [xs g2] eqn:E.
    specialize (IH (fun k => g (S k))). rewrite E in IH. simpl in *.
    destruct IH as [IH1 IH2]. split; [now rewrite IH1|].
    constructor; [|exact IH2].
    pose proof (Z.mod_pos_bound (g 0%nat) (b - a + 1) ltac:(lia)). lia.
Qed.

(** Every list of numbers within the bounds is the outcome of the draws
    on some random source. *)
Lemma randint_list_onto (a b : Z) (l : list Z) :
  Forall (fun x => a <= x <= b) l ->
  fst (randint_list a b (List.length l) (fun k => nth k l a - a)) = l.
Proof.
  induction 1 as [|x l Hx _ IH]; simpl; [reflexivity|].
  destruct (randint_list a b (List.length l) (fun k => nth k l a - a)) as [xs g2] eqn:E.
  simpl in *. subst xs. f_equal.
  rewrite Z.mod_small by lia. lia.
Qed.

Lemma join_digits (l : list Z) :
  Forall in_0_9 l -> List.concat (map str_int l) = map ascii_digit l.
Proof.
  induction 1 as [|x l Hx _ IH]; simpl; [reflexivity|].
  now rewrite str_int_digit, IH by exact Hx.
Qed.

Lemma all_decimal_digits (l : list Z) : Forall in_0_9 l -> all_decimal (map ascii_digit l).
Proof.
  intros H. apply Forall_map. eapply Forall_impl; [|exact H].
  intros x Hx. now apply is_decimal_ascii_digit.
Qed.

Lemma digit_val_digits (l : list Z) (k : nat) :
  Forall in_0_9 l -> digit_val (map ascii_digit l) k = nth k l 0.
Proof.
  intros H. unfold digit_val. rewrite nth_error_map.
  destruct (nth_error l k) as [x|] eqn:E; simpl.
  - rewrite Forall_forall in H. specialize (H x (nth_error_In _ _ E)).
    rewrite to_decimal_ascii_digit by exact H.
    symmetry. now apply nth_error_nth.
  - apply nth_error_None in E. symmetry. now apply nth_overflow.
Qed.

(** The check digit rules give a digit. *)
Lemma cpf_rule_range (x : Z) :
  in_0_9 (if (x * 10) mod 11 =? 10 then 0 else (x * 10) mod 11).
Proof.
  unfold in_0_9. pose proof (Z.mod_pos_bound (x * 10) 11 ltac:(lia)).
  destruct (Z.eqb_spec ((x * 10) mod 11) 10); lia.
Qed.

Lemma cnpj_rule_range (x : Z) :
  in_0_9 (if x mod 11 <? 2 then 0 else 11 - x mod 11).
Proof.
  unfold in_0_9. pose proof (Z.mod_pos_bound x 11 ltac:(lia)).
  destruct (Z.ltb_spec (x mod 11) 2); lia.
Qed.

Lemma cpf_generate_eq (fl : bool) (g : rng) :
  let base := fst (randint_list 0 9 9 g) in
  fst (CPF.generate fl g) = Return (CPF.__init__ (map ascii_digit (cpf_full base))) /\
  List.length base = 9%nat /\ Forall in_0_9 (cpf_full base).
Proof.
  intros base. unfold CPF.generate.
  destruct (randint_list_spec 0 9 9 g ltac:(lia)) as [Hl Hr]. fold base in Hl, Hr.
  destruct (randint_list 0 9 9 g) as [l g'] eqn:E. simpl in base. subst base.
  cbn [fst].
  assert (Hf : Forall in_0_9 (cpf_full l)).
  { unfold cpf_full. repeat (apply Forall_app; split); try exact Hr.
    - constructor; [apply cpf_rule_range | constructor].
    - constructor; [apply cpf_rule_range | constructor]. }
  split; [|split; assumption].
  rewrite <- (join_digits _ Hf).
  rewrite (sum_loop_range _ (fun k => nth k l 0 * (10 - Z.of_nat k)))
    by (intros k Hk; rewrite (getitem_nth l k 0) by lia; reflexivity).
  cbn [bind]. cbv zeta.
  set (fd := if _ =? 10 then 0 else _).
  rewrite (sum_loop_range _ (fun k => nth k (l ++ [fd]) 0 * (11 - Z.of_nat k)))
    by (intros k Hk; rewrite (getitem_nth (l ++ [fd]) k 0)
          by (rewrite length_app; cbn [List.length]; lia); reflexivity).
  cbn [bind]. cbv zeta. subst fd.
  unfold cpf_full, cpf_second, cpf_first. cbv zeta.
  reflexivity.
Qed.

Lemma nth_appended {A : Type} (l : list A) (a b x : A) (k : nat) :
  (k <= List.length l)%nat -> nth k ((l ++ [a]) ++ [b]) x = nth k (l ++ [a]) x.
Proof. intros H. apply app_nth1. rewrite length_app. simpl. lia. Qed.

Lemma nth_payload {A : Type} (l : list A) (a b x : A) (k : nat) :
  (k < List.length l)%nat -> nth k ((l ++ [a]) ++ [b]) x = nth k l x.
Proof.
  intros H. rewrite nth_appended by lia. now apply app_nth1.
Qed.

Lemma nth_first_appended {A : Type} (l : list A) (a b x : A) :
  nth (List.length l) ((l ++ [a]) ++ [b]) x = a.
Proof.
  rewrite nth_appended by lia. rewrite app_nth2 by lia.
  now rewrite Nat.sub_diag.
Qed.

Lemma nth_second_appended {A : Type} (l : list A) (a b x : A) :
  nth (S (List.length l)) ((l ++ [a]) ++ [b]) x = b.
Proof.
  rewrite app_nth2 by (rewrite length_app; simpl; lia).
  replace (S (List.length l) - List.length (l ++ [a]))%nat with 0%nat
    by (rewrite length_app; cbn [List.length]; lia).
  reflexivity.
Qed.

(** A generated CPF has eleven digits and its check digits verify. *)
Lemma cpf_generated_checks (base : list Z) :
  List.length base = 9%nat -> Forall in_0_9 (cpf_full base) ->
  _digits (CPF.__init__ (map ascii_digit (cpf_full base))) = map ascii_digit (cpf_full base) /\
  List.length (map ascii_digit (cpf_full base)) = 11%nat /\
  CPF._validate_check_digits (CPF.__init__ (map ascii_digit (cpf_full base))) = Return true.
Proof.
  intros Hl Hf.
  pose proof (all_decimal_digits _ Hf) as Hd.
  assert (Hc : _digits (CPF.__init__ (map ascii_digit (cpf_full base)))
               = map ascii_digit (cpf_full base)) by (apply clean_fixed, Hd).
  assert (Hn : List.length (map ascii_digit (cpf_full base)) = 11%nat).
  { rewrite length_map. unfold cpf_full. rewrite !length_app. simpl. lia. }
  split; [exact Hc|]. split; [exact Hn|].
  rewrite cpf_validate_check_digits_eq by (rewrite Hc; assumption).
  rewrite Hc. f_equal. apply andb_true_iff. rewrite !Z.eqb_eq.
  unfold spec_cpf_check_digit.
  rewrite !digit_val_digits by exact Hf.
  rewrite (sigma_ext _ (fun k => nth k base 0 * (10 - Z.of_nat k)) 9).
  2:{ intros k Hk. rewrite digit_val_digits by exact Hf.
      unfold cpf_full. rewrite nth_payload by lia. reflexivity. }
  rewrite (sigma_ext _ (fun k => nth k (base ++ [cpf_first base]) 0 * (11 - Z.of_nat k)) 10).
  2:{ intros k Hk. rewrite digit_val_digits by exact Hf.
      unfold cpf_full. rewrite nth_appended by lia. reflexivity. }
  pose proof (nth_first_appended base (cpf_first base) (cpf_second base) 0) as N1.
  pose proof (nth_second_appended base (cpf_first base) (cpf_second base) 0) as N2.
  rewrite Hl in N1, N2. unfold cpf_full. rewrite N1, N2.
  split; reflexivity.
Qed.

Lemma cnpj_generate_eq (fl : bool) (g : rng) :
  let base := fst (randint_list 0 9 12 g) in
  fst (CNPJ.generate fl g) = Return (CNPJ.__init__ (map ascii_digit (cnpj_full base))) /\
  List.length base = 12%nat /\ Forall in_0_9 (cnpj_full base).
Proof.
  intros base. unfold CNPJ.generate.
  destruct (randint_list_spec 0 9 12 g ltac:(lia)) as [Hl Hr]. fold base in Hl, Hr.
  destruct (randint_list 0 9 12 g) as [l g'] eqn:E. simpl in base. subst base.
  cbn [fst].
  assert (Hf : Forall in_0_9 (cnpj_full l)).
  { unfold cnpj_full. repeat (apply Forall_app; split); try exact Hr.
    - constructor; [apply cnpj_rule_range | constructor].
    - constructor; [apply cnpj_rule_range | constructor]. }
  split; [|split; assumption].
  rewrite <- (join_digits _ Hf).
  rewrite (sum_loop_range _ (fun k => nth k l 0 * nth k CNPJ.weights_first 0))
    by (intros k Hk; rewrite (getitem_nth l k 0) by lia; cbn [bind];
        rewrite (getitem_nth CNPJ.weights_first k 0) by (simpl; lia); reflexivity).
  cbn [bind]. cbv zeta.
  set (fd := if _ <? 2 then 0 else 11 - _).
  rewrite (sum_loop_range _ (fun k => nth k (l ++ [fd]) 0 *
                                      nth k CNPJ.weights_second 0))
    by (intros k Hk; rewrite (getitem_nth (l ++ [fd]) k 0)
          by (rewrite length_app; cbn [List.length]; lia); cbn [bind];
        rewrite (getitem_nth CNPJ.weights_second k 0) by (simpl; lia); reflexivity).
  cbn [bind]. cbv zeta. subst fd.
  unfold cnpj_full, cnpj_second, cnpj_first. cbv zeta.
  reflexivity.
Qed.

(** A generated CNPJ has fourteen digits and its check digits verify. *)
Lemma cnpj_generated_checks (base : list Z) :
  List.length base = 12%nat -> Forall in_0_9 (cnpj_full base) ->
  _digits (CNPJ.__init__ (map ascii_digit (cnpj_full base))) = map ascii_digit (cnpj_full base) /\
  List.length (map ascii_digit (cnpj_full base)) = 14%nat /\
  CNPJ._validate_check_digits (CNPJ.__init__ (map ascii_digit (cnpj_full base))) = Return true.
Proof.
  intros Hl Hf.
  pose proof (all_decimal_digits _ Hf) as Hd.
  assert (Hc : _digits (CNPJ.__init__ (map ascii_digit (cnpj_full base)))
               = map ascii_digit (cnpj_full base)) by (apply clean_fixed, Hd).
  assert (Hn : List.length (map ascii_digit (cnpj_full base)) = 14%nat).
  { rewrite length_map. unfold cnpj_full. rewrite !length_app. simpl. lia. }
  split; [exact Hc|]. split; [exact Hn|].
  rewrite cnpj_validate_check_digits_eq by (rewrite Hc; assumption).
  rewrite Hc. f_equal. apply andb_true_iff. rewrite !Z.eqb_eq.
  unfold spec_cnpj_check_digit.
  change (List.length spec_w1) with 12%nat.
  change (List.length spec_w2) with 13%nat.
  change spec_w1 with CNPJ.weights_first.
  change spec_w2 with CNPJ.weights_second.
  rewrite !digit_val_digits by exact Hf.
  rewrite (sigma_ext _ (fun k => nth k base 0 * nth k CNPJ.weights_first 0) 12).
  2:{ intros k Hk. rewrite digit_val_digits by exact Hf.
      unfold cnpj_full. rewrite nth_payload by lia. reflexivity. }
  rewrite (sigma_ext _ (fun k => nth k (base ++ [cnpj_first base]) 0 *
                                 nth k CNPJ.weights_second 0) 13).
  2:{ intros k Hk. rewrite digit_val_digits by exact Hf.
      unfold cnpj_full. rewrite nth_appended by lia. reflexivity. }
  pose proof (nth_first_appended base (cnpj_first base) (cnpj_second base) 0) as N1.
  pose proof (nth_second_appended base (cnpj_first base) (cnpj_second base) 0) as N2.
  rewrite Hl in N1, N2. unfold cnpj_full. rewrite N1, N2.
  split; reflexivity.
Qed.

(** [generate] returns: it raises no exception. *)
Lemma cpf_generate_returns (fl : bool) (g : rng) :
  exists doc, fst (CPF.generate fl g) = Return doc.
Proof. eexists. apply cpf_generate_eq. Qed.

Lemma cnpj_generate_returns (fl : bool) (g : rng) :
  exists doc, fst (CNPJ.generate fl g) = Return doc.
Proof. eexists. apply cnpj_generate_eq. Qed.

(** ** Which draws give a document of identical digits *)

Lemma all_identical_dec (d : str) : all_identical d \/ ~ all_identical d.
Proof.
  destruct d as [|c d]; [left; intros a b []|].
  destruct (str_eqb (c :: d) (repeat c (List.length (c :: d)))) eqn:E.
  - left. apply str_eqb_eq in E. rewrite E. apply all_identical_repeat.
  - right. intros H. apply all_identical_cons in H.
    apply str_eqb_eq in H. congruence.
Qed.

Lemma ascii_digit_inj (a b : Z) :
  in_0_9 a -> in_0_9 b -> ascii_digit a = ascii_digit b -> a = b.
Proof. unfold in_0_9, ascii_digit. intros Ha Hb H. lia. Qed.

Lemma all_identical_digits (l : list Z) :
  Forall in_0_9 l -> (all_identical (map ascii_digit l) <-> all_identical l).
Proof.
  intros Hf. rewrite Forall_forall in Hf. split; intros H a b Ha Hb.
  - apply ascii_digit_inj; try (now apply Hf).
    apply H; now apply in_map.
  - apply in_map_iff in Ha as (x & <- & Hx), Hb as (y & <- & Hy).
    f_equal. now apply H.
Qed.

Lemma all_identical_payload (l : list Z) (n : nat) :
  List.length l = S n -> all_identical l -> exists x, l = repeat x (S n).
Proof.
  intros Hl H. destruct l as [|x l]; [discriminate|].
  exists x. rewrite <- Hl. now apply all_identical_cons.
Qed.

Lemma digit_cases (x : Z) :
  in_0_9 x ->
  x = 0 \/ x = 1 \/ x = 2 \/ x = 3 \/ x = 4 \/ x = 5 \/ x = 6 \/ x = 7 \/ x = 8 \/ x = 9.
Proof. unfold in_0_9. lia. Qed.

(** CPF: the document has identical digits exactly when the nine draws
    are identical; the two check digits then repeat the drawn digit. *)
Lemma cpf_full_identical (base : list Z) :
  List.length base = 9%nat -> Forall in_0_9 base ->
  (all_identical (cpf_full base) <-> all_identical base).
Proof.
  intros Hl Hf. split; intros H.
  - intros a b Ha Hb. apply H; unfold cpf_full; apply in_or_app; left;
      apply in_or_app; now left.
  - destruct (all_identical_payload base 8 Hl H) as [x ->].
    assert (Hx : in_0_9 x) by (inversion Hf; assumption).
    apply digit_cases in Hx.
    repeat (destruct Hx as [-> | Hx]; [apply (all_identical_repeat _ 11)|]).
    subst x. apply (all_identical_repeat _ 11).
Qed.

(** CNPJ: the document has identical digits exactly when the twelve draws
    are all zero. *)
Lemma cnpj_full_identical (base : list Z) :
  List.length base = 12%nat -> Forall in_0_9 base ->
  (all_identical (cnpj_full base) <-> base = repeat 0 12).
Proof.
  intros Hl Hf. split; intros H.
  - assert (Hb : all_identical base).
    { intros a b Ha Hb. apply H; unfold cnpj_full; apply in_or_app; left;
        apply in_or_app; now left. }
    destruct (all_identical_payload base 11 Hl Hb) as [x ->].
    assert (Hx : in_0_9 x) by (inversion Hf; assumption).
    assert (E : x = cnpj_first (repeat x 12)).
    { apply H; unfold cnpj_full; apply in_or_app; left; apply in_or_app.
      - left. now left.
      - right. now left. }
    apply digit_cases in Hx.
    destruct Hx as [-> | Hx]; [reflexivity|].
    exfalso.
    repeat (destruct Hx as [-> | Hx]; [vm_compute in E; discriminate|]).
    subst x. vm_compute in E. discriminate.
  - subst base. apply (all_identical_repeat _ 14).
Qed.

(** What [CPF.generate] returns: a document of eleven digits whose check
    digits verify; it is rejected exactly when the nine draws are
    identical. *)
Lemma cpf_generate_valid_iff (fl : bool) (g : rng) :
  exists doc b,
    fst (CPF.generate fl g) = Return doc /\
    len (CPF.digits doc) = 11 /\
    CPF._validate_check_digits doc = Return true /\
    CPF.is_valid doc = Return b /\
    (b = false <-> all_identical (fst (randint_list 0 9 9 g))).
Proof.
  destruct (cpf_generate_eq fl g) as (Hg & Hl & Hf).
  set (base := fst (randint_list 0 9 9 g)) in *.
  destruct (cpf_generated_checks base Hl Hf) as (Hc & Hn & Hv).
  pose proof (all_decimal_digits _ Hf) as Hd.
  assert (Hb : Forall in_0_9 base).
  { unfold cpf_full in Hf. apply Forall_app in Hf as [Hf _].
    now apply Forall_app in Hf as [Hf _]. }
  destruct (cpf_is_valid_spec (CPF.__init__ (map ascii_digit (cpf_full base))))
    as (b & Hi & Hiff); [rewrite Hc; exact Hd|].
  exists (CPF.__init__ (map ascii_digit (cpf_full base))), b.
  split; [exact Hg|]. unfold CPF.digits. rewrite Hc in *.
  split; [unfold len; lia|]. split; [exact Hv|]. split; [exact Hi|].
  rewrite cpf_validate_check_digits_eq in Hv by (rewrite Hc; assumption).
  rewrite Hc in Hv. apply Return_inj in Hv.
  apply andb_true_iff in Hv as [V1 V2]. apply Z.eqb_eq in V1, V2.
  rewrite <- cpf_full_identical, <- all_identical_digits by assumption.
  destruct (all_identical_dec (map ascii_digit (cpf_full base))) as [Hs|Hs].
  - split; [intros _; exact Hs|]. intros _.
    destruct b; [|reflexivity].
    destruct Hiff as [Hiff _]. destruct (Hiff eq_refl) as (_ & Hn' & _). contradiction.
  - split; [|intros; contradiction]. intros ->.
    destruct Hiff as [_ Hiff]. discriminate Hiff.
    repeat split; try assumption; unfold len; lia.
Qed.

(** What [CNPJ.generate] returns: a document of fourteen digits whose
    check digits verify; it is rejected exactly when the twelve draws are
    all zero. *)
Lemma cnpj_generate_valid_iff (fl : bool) (g : rng) :
  exists doc b,
    fst (CNPJ.generate fl g) = Return doc /\
    len (CNPJ.digits doc) = 14 /\
    CNPJ._validate_check_digits doc = Return true /\
    CNPJ.is_valid doc = Return b /\
    (b = false <-> fst (randint_list 0 9 12 g) = repeat 0 12).
Proof.
  destruct (cnpj_generate_eq fl g) as (Hg & Hl & Hf).
  set (base := fst (randint_list 0 9 12 g)) in *.
  destruct (cnpj_generated_checks base Hl Hf) as (Hc & Hn & Hv).
  pose proof (all_decimal_digits _ Hf) as Hd.
  assert (Hb : Forall in_0_9 base).
  { unfold cnpj_full in Hf. apply Forall_app in Hf as [Hf _].
    now apply Forall_app in Hf as [Hf _]. }
  destruct (cnpj_is_valid_spec (CNPJ.__init__ (map ascii_digit (cnpj_full base))))
    as (b & Hi & Hiff); [rewrite Hc; exact Hd|].
  exists (CNPJ.__init__ (map ascii_digit (cnpj_full base))), b.
  split; [exact Hg|]. unfold CNPJ.digits. rewrite Hc in *.
  split; [unfold len; lia|]. split; [exact Hv|]. split; [exact Hi|].
  rewrite cnpj_validate_check_digits_eq in Hv by (rewrite Hc; assumption).
  rewrite Hc in Hv. apply Return_inj in Hv.
  apply andb_true_iff in Hv as [V1 V2]. apply Z.eqb_eq in V1, V2.
  rewrite <- cnpj_full_identical, <- all_identical_digits by assumption.
  destruct (all_identical_dec (map ascii_digit (cnpj_full base))) as [Hs|Hs].
  - split; [intros _; exact Hs|]. intros _.
    destruct b; [|reflexivity].
    destruct Hiff as [Hiff _]. destruct (Hiff eq_refl) as (_ & Hn' & _). contradiction.
  - split; [|intros; contradiction]. intros ->.
    destruct Hiff as [_ Hiff]. discriminate Hiff.
    repeat split; try assumption; unfold len; lia.
Qed.

(** ** Formatting and display *)

Lemma cpf_formatted_cases (self : attrs) :
  (len (_digits self) = 11 /\
   exists f, CPF.formatted self = Return f /\ CPF.__str__ self = Return f) \/
  (len (_digits self) <> 11 /\
   CPF.formatted self
   = Raise (InvalidCPFError (lit "CPF must have 11 digits, got " ++
                             str_int (len (_digits self)))) /\
   CPF.__str__ self = Return (_digits self)).
Proof.
  unfold CPF.__str__, CPF.formatted.
  destruct (Z.eqb_spec (len (_digits self)) 11) as [E|E]; cbn [negb].
  - left. split; [exact E|]. eexists. split; reflexivity.
  - right. repeat split. exact E.
Qed.

Lemma cnpj_formatted_cases (self : attrs) :
  (len (_digits self) = 14 /\
   exists f, CNPJ.formatted self = Return f /\ CNPJ.__str__ self = Return f) \/
  (len (_digits self) <> 14 /\
   CNPJ.formatted self
   = Raise (InvalidCNPJError (lit "CNPJ must have 14 digits, got " ++
                              str_int (len (_digits self)))) /\
   CNPJ.__str__ self = Return (_digits self)).
Proof.
  unfold CNPJ.__str__, CNPJ.formatted.
  destruct (Z.eqb_spec (len (_digits self)) 14) as [E|E]; cbn [negb].
  - left. split; [exact E|]. eexists. split; reflexivity.
  - right. repeat split. exact E.
Qed.

(** C5: [formatted] raises exactly when the number of cleaned digits
    differs from the kind's total length, and then raises
    [InvalidCPFError] (or [InvalidCNPJError]) with a message that states
    11 (or 14) and the number of digits found.  Nothing else raises:
    construction, [digits], [__repr__], [__eq__] and [__hash__] are total
    functions; [is_valid] and [validate] return a boolean, false on a
    wrong length; [generate] returns a document; [__str__] returns the
    formatted string when the length is right and the digits otherwise. *)
Theorem only_formatted_raises (s : str) (fl : bool) (g : rng) :
  ((exists e, CPF.formatted (CPF.__init__ s) = Raise e) <->
   len (CPF.digits (CPF.__init__ s)) <> 11) /\
  (forall e, CPF.formatted (CPF.__init__ s) = Raise e ->
     e = InvalidCPFError (lit "CPF must have 11 digits, got " ++
                          str_int (len (CPF.digits (CPF.__init__ s))))) /\
  ((exists e, CNPJ.formatted (CNPJ.__init__ s) = Raise e) <->
   len (CNPJ.digits (CNPJ.__init__ s)) <> 14) /\
  (forall e, CNPJ.formatted (CNPJ.__init__ s) = Raise e ->
     e = InvalidCNPJError (lit "CNPJ must have 14 digits, got " ++
                           str_int (len (CNPJ.digits (CNPJ.__init__ s))))) /\
  CPF.formatted (CPF.__init__ (lit "123456789"))
    = Raise (InvalidCPFError (lit "CPF must have 11 digits, got 9")) /\
  CNPJ.formatted (CNPJ.__init__ (lit "1122233300"))
    = Raise (InvalidCNPJError (lit "CNPJ must have 14 digits, got 10")) /\
  (exists b, CPF.is_valid (CPF.__init__ s) = Return b /\ CPF.validate s = Return b /\
     (len (CPF.digits (CPF.__init__ s)) <> 11 -> b = false)) /\
  (exists b, CNPJ.is_valid (CNPJ.__init__ s) = Return b /\ CNPJ.validate s = Return b /\
     (len (CNPJ.digits (CNPJ.__init__ s)) <> 14 -> b = false)) /\
  (len (CPF.digits (CPF.__init__ s)) = 11 ->
   exists f, CPF.formatted (CPF.__init__ s) = Return f /\
             CPF.__str__ (CPF.__init__ s) = Return f) /\
  (len (CPF.digits (CPF.__init__ s)) <> 11 ->
   CPF.__str__ (CPF.__init__ s) = Return (CPF.digits (CPF.__init__ s))) /\
  (len (CNPJ.digits (CNPJ.__init__ s)) = 14 ->
   exists f, CNPJ.formatted (CNPJ.__init__ s) = Return f /\
             CNPJ.__str__ (CNPJ.__init__ s) = Return f) /\
  (len (CNPJ.digits (CNPJ.__init__ s)) <> 14 ->
   CNPJ.__str__ (CNPJ.__init__ s) = Return (CNPJ.digits (CNPJ.__init__ s))) /\
  (exists doc, fst (CPF.generate fl g) = Return doc) /\
  (exists doc, fst (CNPJ.generate fl g) = Return doc).
Proof.
  unfold CPF.digits, CNPJ.digits, CPF.validate, CNPJ.validate.
  pose proof (cpf_formatted_cases (CPF.__init__ s)) as FP.
  pose proof (cnpj_formatted_cases (CNPJ.__init__ s)) as FN.
  pose proof (cpf_is_valid_spec (CPF.__init__ s) (clean_all_decimal s)) as VP.
  pose proof (cnpj_is_valid_spec (CNPJ.__init__ s) (clean_all_decimal s)) as VN.
  split.
  { destruct FP as [(E & f & Hf & _) | (E & Hf & _)]; rewrite Hf; split.
    - intros [e He]; discriminate.
    - intros H; contradiction.
    - intros _; exact E.
    - intros _; eexists; reflexivity. }
  split.
  { intros e. destruct FP as [(E & f & Hf & _) | (E & Hf & _)]; rewrite Hf.
    - discriminate.
    - intros H; injection H as <-; reflexivity. }
  split.
  { destruct FN as [(E & f & Hf & _) | (E & Hf & _)]; rewrite Hf; split.
    - intros [e He]; discriminate.
    - intros H; contradiction.
    - intros _; exact E.
    - intros _; eexists; reflexivity. }
  split.
  { intros e. destruct FN as [(E & f & Hf & _) | (E & Hf & _)]; rewrite Hf.
    - discriminate.
    - intros H; injection H as <-; reflexivity. }
  split; [reflexivity|]. split; [reflexivity|].
  split.
  { destruct VP as (b & Hb & Hiff). exists b. repeat split; try exact Hb.
    intros Hl. destruct b; [|reflexivity]. exfalso. apply Hl. now apply Hiff. }
  split.
  { destruct VN as (b & Hb & Hiff). exists b. repeat split; try exact Hb.
    intros Hl. destruct b; [|reflexivity]. exfalso. apply Hl. now apply Hiff. }
  split.
  { intros Hl. destruct FP as [(E & f & Hf & Hs) | (E & _)]; [|contradiction].
    exists f. now split. }
  split.
  { intros Hl. destruct FP as [(E & _) | (E & _ & Hs)]; [contradiction|exact Hs]. }
  split.
  { intros Hl. destruct FN as [(E & f & Hf & Hs) | (E & _)]; [|contradiction].
    exists f. now split. }
  split.
  { intros Hl. destruct FN as [(E & _) | (E & _ & Hs)]; [contradiction|exact Hs]. }
  split; [apply cpf_generate_returns | apply cnpj_generate_returns].
Qed.

(** C1, at the draws where it fails: when every draw is 0 the generator
    returns the document of eleven (or fourteen) zeros, which [is_valid]
    rejects. *)
Theorem generate_zero_draws_invalid :
  (exists doc, fst (CPF.generate false (fun _ => 0)) = Return doc /\
               CPF.digits doc = lit "00000000000" /\
               CPF._validate_check_digits doc = Return true /\
               CPF.is_valid doc = Return false) /\
  (exists doc, fst (CNPJ.generate false (fun _ => 0)) = Return doc /\
               CNPJ.digits doc = lit "00000000000000" /\
               CNPJ._validate_check_digits doc = Return true /\
               CNPJ.is_valid doc = Return false).
Proof.
  split; eexists; (split; [vm_compute; reflexivity|]); repeat split.
Qed.

(** * Further properties of the two classes *)

(** ** The generator *)

Lemma cpf_generate_source (fl : bool) (g : rng) (n : nat) :
  snd (CPF.generate fl g) n = g (9 + n)%nat.
Proof.
  unfold CPF.generate.
  change (g (9 + n)%nat) with (snd (randint_list 0 9 9 g) n).
  destruct (randint_list 0 9 9 g) as [l g']. reflexivity.
Qed.

Lemma cnpj_generate_source (fl : bool) (g : rng) (n : nat) :
  snd (CNPJ.generate fl g) n = g (12 + n)%nat.
Proof.
  unfold CNPJ.generate.
  change (g (12 + n)%nat) with (snd (randint_list 0 9 12 g) n).
  destruct (randint_list 0 9 12 g) as [l g']. reflexivity.
Qed.

Lemma ascii_digit_is_ascii (l : list Z) :
  Forall in_0_9 l -> Forall is_ascii_digit (map ascii_digit l).
Proof.
  intros H. apply Forall_map. eapply Forall_impl; [|exact H].
  unfold in_0_9, is_ascii_digit, ascii_digit. intros x Hx. lia.
Qed.

Lemma payload_prefix {A B : Type} (f : A -> B) (l : list A) (a b : A) :
  slice_to (map f ((l ++ [a]) ++ [b])) (List.length l) = map f l.
Proof.
  unfold slice_to. rewrite <- app_assoc, map_app, <- (length_map f l).
  rewrite firstn_app, Nat.sub_diag, firstn_all. simpl. apply app_nil_r.
Qed.

(** X1: [CPF.generate] never raises and takes exactly nine draws from the
    random source.  The document it returns is built from its own digit
    string: eleven characters '0'-'9', the first nine being the draws in
    order, and the last two check digits that verify.  [is_valid] rejects
    it exactly when the nine draws are one and the same digit. *)
Theorem cpf_generate_characterised (fl : bool) (g : rng) :
  exists doc b,
    fst (CPF.generate fl g) = Return doc /\
    (forall n, snd (CPF.generate fl g) n = g (9 + n)%nat) /\
    _original doc = CPF.digits doc /\
    Forall is_ascii_digit (CPF.digits doc) /\
    len (CPF.digits doc) = 11 /\
    slice_to (CPF.digits doc) 9 = map ascii_digit (fst (randint_list 0 9 9 g)) /\
    CPF._validate_check_digits doc = Return true /\
    CPF.is_valid doc = Return b /\
    (b = false <-> all_identical (fst (randint_list 0 9 9 g))).
Proof.
  destruct (cpf_generate_valid_iff fl g) as (doc & b & Hg & Hlen & Hv & Hi & Hb).
  destruct (cpf_generate_eq fl g) as (Hg' & Hl & Hf).
  rewrite Hg in Hg'. apply Return_inj in Hg'. subst doc.
  destruct (cpf_generated_checks _ Hl Hf) as (Hc & _ & _).
  exists (CPF.__init__ (map ascii_digit (cpf_full (fst (randint_list 0 9 9 g))))), b.
  split; [exact Hg|]. split; [apply cpf_generate_source|].
  split; [symmetry; exact Hc|].
  unfold CPF.digits in *. rewrite Hc.
  split; [now apply ascii_digit_is_ascii|].
  split; [rewrite Hc in Hlen; exact Hlen|].
  split; [|split; [exact Hv|split; [exact Hi|exact Hb]]].
  unfold cpf_full. rewrite <- Hl at 1. apply payload_prefix.
Qed.

(** X2: [CNPJ.generate] never raises and takes exactly twelve draws from
    the random source.  The document it returns is built from its own
    digit string: fourteen characters '0'-'9', the first twelve being the
    draws in order, and the last two check digits that verify.
    [is_valid] rejects it exactly when the twelve draws are all 0. *)
Theorem cnpj_generate_characterised (fl : bool) (g : rng) :
  exists doc b,
    fst (CNPJ.generate fl g) = Return doc /\
    (forall n, snd (CNPJ.generate fl g) n = g (12 + n)%nat) /\
    _original doc = CNPJ.digits doc /\
    Forall is_ascii_digit (CNPJ.digits doc) /\
    len (CNPJ.digits doc) = 14 /\
    slice_to (CNPJ.digits doc) 12 = map ascii_digit (fst (randint_list 0 9 12 g)) /\
    CNPJ._validate_check_digits doc = Return true /\
    CNPJ.is_valid doc = Return b /\
    (b = false <-> fst (randint_list 0 9 12 g) = repeat 0 12).
Proof.
  destruct (cnpj_generate_valid_iff fl g) as (doc & b & Hg & Hlen & Hv & Hi & Hb).
  destruct (cnpj_generate_eq fl g) as (Hg' & Hl & Hf).
  rewrite Hg in Hg'. apply Return_inj in Hg'. subst doc.
  destruct (cnpj_generated_checks _ Hl Hf) as (Hc & _ & _).
  exists (CNPJ.__init__ (map ascii_digit (cnpj_full (fst (randint_list 0 9 12 g))))), b.
  split; [exact Hg|]. split; [apply cnpj_generate_source|].
  split; [symmetry; exact Hc|].
  unfold CNPJ.digits in *. rewrite Hc.
  split; [now apply ascii_digit_is_ascii|].
  split; [rewrite Hc in Hlen; exact Hlen|].
  split; [|split; [exact Hv|split; [exact Hi|exact Hb]]].
  unfold cnpj_full. rewrite <- Hl at 1. apply payload_prefix.
Qed.

(** X3: a generated document can always be formatted and displayed:
    [formatted] on the result of [generate] returns, a string of 14
    characters for a CPF and of 18 for a CNPJ, and [__str__] returns the
    same string. *)
Theorem generated_document_formats (fl : bool) (g : rng) :
  (exists doc f, fst (CPF.generate fl g) = Return doc /\
                 CPF.formatted doc = Return f /\
                 CPF.__str__ doc = Return f /\ len f = 14) /\
  (exists doc f, fst (CNPJ.generate fl g) = Return doc /\
                 CNPJ.formatted doc = Return f /\
                 CNPJ.__str__ doc = Return f /\ len f = 18).
Proof.
  split.
  - destruct (cpf_generate_valid_iff fl g) as (doc & b & Hg & Hlen & _).
    exists doc. unfold CPF.digits in Hlen.
    unfold CPF.__str__, CPF.formatted. rewrite Hlen. cbn [Z.eqb Pos.eqb negb].
    eexists. repeat split; [exact Hg|].
    unfold len in *.
    destruct (_digits doc) as [|c0 [|c1 [|c2 [|c3 [|c4 [|c5 [|c6 [|c7 [|c8 [|c9 [|c10 [|c11 r]]]]]]]]]]]];
      simpl in Hlen; try lia. reflexivity.
  - destruct (cnpj_generate_valid_iff fl g) as (doc & b & Hg & Hlen & _).
    exists doc. unfold CNPJ.digits in Hlen.
    unfold CNPJ.__str__, CNPJ.formatted. rewrite Hlen. cbn [Z.eqb Pos.eqb negb].
    eexists. repeat split; [exact Hg|].
    unfold len in *.
    destruct (_digits doc) as [|c0 [|c1 [|c2 [|c3 [|c4 [|c5 [|c6 [|c7 [|c8 [|c9 [|c10 [|c11 [|c12 [|c13 [|c14 r]]]]]]]]]]]]]]];
      simpl in Hlen; try lia. reflexivity.
Qed.

(** ** Formatting and display *)

(** X4: the shape of a formatted document.  With 11 digits, the CPF
    format has 14 characters with '.' at indices 3 and 7 and '-' at index
    11; with 14 digits, the CNPJ format has 18 characters with '.' at
    indices 2 and 6, '/' at index 10 and '-' at index 15.  The remaining
    positions hold the digits, in order. *)
Theorem formatted_shape (a b : attrs) :
  len (_digits a) = 11 ->
  len (_digits b) = 14 ->
  (exists f, CPF.formatted a = Return f /\ len f = 14 /\
     getitem f 3 = getitem (lit ".") 0 /\
     getitem f 7 = getitem (lit ".") 0 /\
     getitem f 11 = getitem (lit "-") 0 /\
     slice_to f 3 ++ slice f 4 7 ++ slice f 8 11 ++ slice_from f 12 = _digits a) /\
  (exists f, CNPJ.formatted b = Return f /\ len f = 18 /\
     getitem f 2 = getitem (lit ".") 0 /\
     getitem f 6 = getitem (lit ".") 0 /\
     getitem f 10 = getitem (lit "/") 0 /\
     getitem f 15 = getitem (lit "-") 0 /\
     slice_to f 2 ++ slice f 3 6 ++ slice f 7 10 ++ slice f 11 15 ++ slice_from f 16
     = _digits b).
Proof.
  intros Ha Hb. split.
  - unfold CPF.formatted. rewrite Ha. cbn [Z.eqb Pos.eqb negb].
    eexists. split; [reflexivity|]. unfold len in *.
    destruct (_digits a) as [|c0 [|c1 [|c2 [|c3 [|c4 [|c5 [|c6 [|c7 [|c8 [|c9 [|c10 [|c11 r]]]]]]]]]]]];
      simpl in Ha; try lia. repeat split.
  - unfold CNPJ.formatted. rewrite Hb. cbn [Z.eqb Pos.eqb negb].
    eexists. split; [reflexivity|]. unfold len in *.
    destruct (_digits b) as [|c0 [|c1 [|c2 [|c3 [|c4 [|c5 [|c6 [|c7 [|c8 [|c9 [|c10 [|c11 [|c12 [|c13 [|c14 r]]]]]]]]]]]]]]];
      simpl in Hb; try lia. repeat split.
Qed.

Lemma formatted_shape_witness :
  (exists f, CPF.formatted (CPF.__init__ (lit "11144477735")) = Return f /\ len f = 14 /\
     getitem f 3 = getitem (lit ".") 0 /\
     getitem f 7 = getitem (lit ".") 0 /\
     getitem f 11 = getitem (lit "-") 0 /\
     slice_to f 3 ++ slice f 4 7 ++ slice f 8 11 ++ slice_from f 12
     = _digits (CPF.__init__ (lit "11144477735"))) /\
  (exists f, CNPJ.formatted (CNPJ.__init__ (lit "11222333000181")) = Return f /\ len f = 18 /\
     getitem f 2 = getitem (lit ".") 0 /\
     getitem f 6 = getitem (lit ".") 0 /\
     getitem f 10 = getitem (lit "/") 0 /\
     getitem f 15 = getitem (lit "-") 0 /\
     slice_to f 2 ++ slice f 3 6 ++ slice f 7 10 ++ slice f 11 15 ++ slice_from f 16
     = _digits (CNPJ.__init__ (lit "11222333000181"))).
Proof.
  apply (formatted_shape (CPF.__init__ (lit "11144477735"))
                         (CNPJ.__init__ (lit "11222333000181"))); reflexivity.
Defined.

(** [is_valid] reads the digits only. *)
Lemma cpf_is_valid_digits (a b : attrs) :
  _digits a = _digits b -> CPF.is_valid a = CPF.is_valid b.
Proof.
  intros H. unfold CPF.is_valid, CPF._validate_check_digits. now rewrite H.
Qed.

Lemma cnpj_is_valid_digits (a b : attrs) :
  _digits a = _digits b -> CNPJ.is_valid a = CNPJ.is_valid b.
Proof.
  intros H. unfold CNPJ.is_valid, CNPJ._validate_check_digits. now rewrite H.
Qed.

Lemma cpf_str_digits (s : str) :
  exists t, CPF.__str__ (CPF.__init__ s) = Return t /\
            re_sub_nondigit t = re_sub_nondigit s.
Proof.
  unfold CPF.__str__, CPF.formatted.
  destruct (Z.eqb_spec (len (_digits (CPF.__init__ s))) 11) as [E|E]; cbn [negb].
  - eexists. split; [reflexivity|]. apply cpf_clean_formatted, clean_all_decimal.
  - eexists. split; [reflexivity|]. apply clean_fixed, clean_all_decimal.
Qed.

Lemma cnpj_str_digits (s : str) :
  exists t, CNPJ.__str__ (CNPJ.__init__ s) = Return t /\
            re_sub_nondigit t = re_sub_nondigit s.
Proof.
  unfold CNPJ.__str__, CNPJ.formatted.
  destruct (Z.eqb_spec (len (_digits (CNPJ.__init__ s))) 14) as [E|E]; cbn [negb].
  - eexists. split; [reflexivity|]. apply cnpj_clean_formatted, clean_all_decimal.
  - eexists. split; [reflexivity|]. apply clean_fixed, clean_all_decimal.
Qed.

(** X5: displaying a document and building a document from the displayed
    string gives an equal document, whatever the input and whether or not
    its length is right: [CPF(str(CPF(s))) == CPF(s)], with the same
    digits and the same validity; likewise for CNPJ. *)
Theorem str_round_trip (s : str) :
  (exists t, CPF.__str__ (CPF.__init__ s) = Return t /\
     CPF.digits (CPF.__init__ t) = CPF.digits (CPF.__init__ s) /\
     CPF.__eq__ (CPF.__init__ t) (CPF_instance (CPF.__init__ s)) = true /\
     CPF.validate t = CPF.validate s) /\
  (exists t, CNPJ.__str__ (CNPJ.__init__ s) = Return t /\
     CNPJ.digits (CNPJ.__init__ t) = CNPJ.digits (CNPJ.__init__ s) /\
     CNPJ.__eq__ (CNPJ.__init__ t) (CNPJ_instance (CNPJ.__init__ s)) = true /\
     CNPJ.validate t = CNPJ.validate s).
Proof.
  split.
  - destruct (cpf_str_digits s) as (t & Ht & Hd). exists t.
    split; [exact Ht|]. split; [exact Hd|]. split.
    + apply str_eqb_eq. exact Hd.
    + apply cpf_is_valid_digits. exact Hd.
  - destruct (cnpj_str_digits s) as (t & Ht & Hd). exists t.
    split; [exact Ht|]. split; [exact Hd|]. split.
    + apply str_eqb_eq. exact Hd.
    + apply cnpj_is_valid_digits. exact Hd.
Qed.

(** X6: a valid document can be formatted: when [is_valid] returns true,
    [formatted] returns a string, and that string validates. *)
Theorem valid_document_formats (s1 s2 : str) :
  CPF.validate s1 = Return true ->
  CNPJ.validate s2 = Return true ->
  (exists f, CPF.formatted (CPF.__init__ s1) = Return f /\ CPF.validate f = Return true) /\
  (exists f, CNPJ.formatted (CNPJ.__init__ s2) = Return f /\ CNPJ.validate f = Return true).
Proof.
  intros H1 H2. split.
  - destruct (cpf_is_valid_spec (CPF.__init__ s1) (clean_all_decimal s1)) as (b & Hb & Hiff).
    unfold CPF.validate in H1. rewrite H1 in Hb. apply Return_inj in Hb. subst b.
    destruct Hiff as [Hiff _]. destruct (Hiff eq_refl) as (Hl & _).
    destruct (cpf_formatted_cases (CPF.__init__ s1)) as [(_ & f & Hf & Hs) | (E & _)];
      [|contradiction].
    exists f. split; [exact Hf|].
    destruct (cpf_str_digits s1) as (t & Ht & Hd).
    rewrite Hs in Ht. apply Return_inj in Ht. subst t.
    rewrite <- H1. apply cpf_is_valid_digits. exact Hd.
  - destruct (cnpj_is_valid_spec (CNPJ.__init__ s2) (clean_all_decimal s2)) as (b & Hb & Hiff).
    unfold CNPJ.validate in H2. rewrite H2 in Hb. apply Return_inj in Hb. subst b.
    destruct Hiff as [Hiff _]. destruct (Hiff eq_refl) as (Hl & _).
    destruct (cnpj_formatted_cases (CNPJ.__init__ s2)) as [(_ & f & Hf & Hs) | (E & _)];
      [|contradiction].
    exists f. split; [exact Hf|].
    destruct (cnpj_str_digits s2) as (t & Ht & Hd).
    rewrite Hs in Ht. apply Return_inj in Ht. subst t.
    rewrite <- H2. apply cnpj_is_valid_digits. exact Hd.
Qed.

Lemma valid_document_formats_witness :
  (exists f, CPF.formatted (CPF.__init__ (lit "11144477735")) = Return f /\
             CPF.validate f = Return true) /\
  (exists f, CNPJ.formatted (CNPJ.__init__ (lit "11 222 333 0001 81")) = Return f /\
             CNPJ.validate f = Return true).
Proof.
  apply (valid_document_formats (lit "11144477735") (lit "11 222 333 0001 81"));
    vm_compute; reflexivity.
Defined.

(** ** Cleaning and equality *)

Lemma clean_no_digit (t : str) :
  Forall (fun c => is_decimal c = false) t -> re_sub_nondigit t = [].
Proof.
  unfold re_sub_nondigit. induction 1 as [|c t Hc _ IH]; simpl; [reflexivity|].
  now rewrite Hc.
Qed.

Lemma clean_length (s : str) : len (re_sub_nondigit s) <= len s.
Proof.
  unfold len, re_sub_nondigit. induction s as [|c s IH]; simpl; [lia|].
  destruct (is_decimal c); simpl; lia.
Qed.

Lemma clean_same_length (s : str) : len (re_sub_nondigit s) = len s -> re_sub_nondigit s = s.
Proof.
  unfold len, re_sub_nondigit. induction s as [|c s IH]; simpl; [reflexivity|].
  pose proof (clean_length s) as Hs. unfold len, re_sub_nondigit in Hs.
  destruct (is_decimal c); simpl; intros H.
  - f_equal. apply IH. lia.
  - lia.
Qed.

(** X7: cleaning is idempotent and distributes over concatenation; it
    never lengthens a string, and it leaves a string unchanged exactly
    when the string is made of decimal digits only.  Both classes clean
    the same way. *)
Theorem clean_algebra (s t : str) :
  CPF._clean (CPF._clean s) = CPF._clean s /\
  CPF._clean (s ++ t) = CPF._clean s ++ CPF._clean t /\
  len (CPF._clean s) <= len s /\
  (CPF._clean s = s <-> all_decimal s) /\
  (len (CPF._clean s) = len s <-> all_decimal s) /\
  CNPJ._clean s = CPF._clean s /\
  CPF.digits (CPF.__init__ (CPF.digits (CPF.__init__ s))) = CPF.digits (CPF.__init__ s).
Proof.
  unfold CPF._clean, CNPJ._clean, CPF.digits. cbn [_digits CPF.__init__].
  unfold CPF._clean.
  assert (Hfix : re_sub_nondigit s = s <-> all_decimal s).
  { split; [intros <-; apply clean_all_decimal | apply clean_fixed]. }
  split; [apply clean_fixed, clean_all_decimal|].
  split; [apply clean_app|].
  split; [apply clean_length|].
  split; [exact Hfix|].
  split; [|split; [reflexivity | apply clean_fixed, clean_all_decimal]].
  rewrite <- Hfix. split; [apply clean_same_length | now intros ->].
Qed.

(** X8: characters that are not decimal digits are ignored wherever they
    stand: inserting any run of them into the input changes neither the
    digits, nor the validity, nor the formatted string, and the two
    documents compare equal. *)
Theorem non_digits_are_ignored (a t b : str) :
  Forall (fun c => is_decimal c = false) t ->
  CPF.digits (CPF.__init__ (a ++ t ++ b)) = CPF.digits (CPF.__init__ (a ++ b)) /\
  CPF.__eq__ (CPF.__init__ (a ++ t ++ b)) (CPF_instance (CPF.__init__ (a ++ b))) = true /\
  CPF.validate (a ++ t ++ b) = CPF.validate (a ++ b) /\
  CPF.formatted (CPF.__init__ (a ++ t ++ b)) = CPF.formatted (CPF.__init__ (a ++ b)) /\
  CNPJ.digits (CNPJ.__init__ (a ++ t ++ b)) = CNPJ.digits (CNPJ.__init__ (a ++ b)) /\
  CNPJ.__eq__ (CNPJ.__init__ (a ++ t ++ b)) (CNPJ_instance (CNPJ.__init__ (a ++ b))) = true /\
  CNPJ.validate (a ++ t ++ b) = CNPJ.validate (a ++ b) /\
  CNPJ.formatted (CNPJ.__init__ (a ++ t ++ b)) = CNPJ.formatted (CNPJ.__init__ (a ++ b)).
Proof.
  intros Ht.
  assert (E : re_sub_nondigit (a ++ t ++ b) = re_sub_nondigit (a ++ b)).
  { rewrite !clean_app, (clean_no_digit t Ht). reflexivity. }
  unfold CPF.digits, CNPJ.digits, CPF.validate, CNPJ.validate.
  split; [exact E|].
  split; [apply str_eqb_eq; exact E|].
  split; [apply cpf_is_valid_digits; exact E|].
  split; [unfold CPF.formatted; cbn [_digits CPF.__init__]; unfold CPF._clean; now rewrite E|].
  split; [exact E|].
  split; [apply str_eqb_eq; exact E|].
  split; [apply cnpj_is_valid_digits; exact E|].
  unfold CNPJ.formatted; cbn [_digits CNPJ.__init__]; unfold CNPJ._clean; now rewrite E.
Qed.

Lemma non_digits_are_ignored_witness :
  CPF.validate (lit "111" ++ lit " . " ++ lit "44477735") = CPF.validate (lit "111" ++ lit "44477735").
Proof.
  apply (non_digits_are_ignored (lit "111") (lit " . ") (lit "44477735")).
  repeat constructor.
Defined.

(** X9: [__eq__] is reflexive, symmetric and transitive on the instances
    of a class, and equal documents cannot be told apart by [digits],
    [is_valid], [formatted] or [__str__]. *)
Theorem equal_documents_behave_alike (x y z : attrs) :
  CPF.__eq__ x (CPF_instance y) = true ->
  CNPJ.__eq__ x (CNPJ_instance y) = true ->
  (CPF.__eq__ x (CPF_instance x) = true /\
   CPF.__eq__ y (CPF_instance x) = true /\
   (CPF.__eq__ y (CPF_instance z) = true -> CPF.__eq__ x (CPF_instance z) = true) /\
   CPF.digits x = CPF.digits y /\
   CPF.is_valid x = CPF.is_valid y /\
   CPF.formatted x = CPF.formatted y /\
   CPF.__str__ x = CPF.__str__ y) /\
  (CNPJ.__eq__ x (CNPJ_instance x) = true /\
   CNPJ.__eq__ y (CNPJ_instance x) = true /\
   (CNPJ.__eq__ y (CNPJ_instance z) = true -> CNPJ.__eq__ x (CNPJ_instance z) = true) /\
   CNPJ.digits x = CNPJ.digits y /\
   CNPJ.is_valid x = CNPJ.is_valid y /\
   CNPJ.formatted x = CNPJ.formatted y /\
   CNPJ.__str__ x = CNPJ.__str__ y).
Proof.
  unfold CPF.__eq__, CNPJ.__eq__. intros H _. apply str_eqb_eq in H.
  split.
  - split; [apply str_eqb_eq; reflexivity|].
    split; [apply str_eqb_eq; now symmetry|].
    split; [rewrite !str_eqb_eq; congruence|].
    split; [exact H|].
    split; [now apply cpf_is_valid_digits|].
    unfold CPF.__str__, CPF.formatted. rewrite H. split; reflexivity.
  - split; [apply str_eqb_eq; reflexivity|].
    split; [apply str_eqb_eq; now symmetry|].
    split; [rewrite !str_eqb_eq; congruence|].
    split; [exact H|].
    split; [now apply cnpj_is_valid_digits|].
    unfold CNPJ.__str__, CNPJ.formatted. rewrite H. split; reflexivity.
Qed.

Lemma equal_documents_behave_alike_witness :
  CPF.is_valid (CPF.__init__ (lit "111.444.777-35"))
  = CPF.is_valid (CPF.__init__ (lit "11144477735")).
Proof.
  apply (equal_documents_behave_alike (CPF.__init__ (lit "111.444.777-35"))
           (CPF.__init__ (lit "11144477735")) (CPF.__init__ (lit "")));
    reflexivity.
Defined.

(** ** Check digits *)

Lemma digit_val_prefix (d1 d2 : str) (n k : nat) :
  slice_to d1 n = slice_to d2 n -> (k < n)%nat -> digit_val d1 k = digit_val d2 k.
Proof.
  unfold slice_to, digit_val. intros H Hk.
  assert (E : forall d : str, nth_error d k = nth_error (firstn n d) k).
  { intros d. rewrite nth_error_firstn.
    apply Nat.ltb_lt in Hk. now rewrite Hk. }
  now rewrite (E d1), (E d2), H.
Qed.

Lemma to_decimal_ascii (c : char) :
  is_ascii_digit c -> to_decimal c = Some (Z.of_N (c - 48)).
Proof.
  intros [H1 H2]. unfold to_decimal, decimal_zeros. cbn [lookup_decimal].
  destruct (N.leb 48 c && N.ltb c (48 + 10))%N eqn:E; [reflexivity|].
  apply andb_false_iff in E as [E | E];
    [apply N.leb_gt in E | apply N.ltb_ge in E]; lia.
Qed.

Lemma ascii_digit_val_inj (d1 d2 : str) (k : nat) (c1 c2 : char) :
  nth_error d1 k = Some c1 -> nth_error d2 k = Some c2 ->
  is_ascii_digit c1 -> is_ascii_digit c2 ->
  digit_val d1 k = digit_val d2 k -> c1 = c2.
Proof.
  unfold digit_val. intros -> -> H1 H2.
  rewrite (to_decimal_ascii c1 H1), (to_decimal_ascii c2 H2).
  unfold is_ascii_digit in *. lia.
Qed.

Lemma spec_cpf_check_digit_ext (d1 d2 : str) (n : nat) :
  (forall k, (k < n)%nat -> digit_val d1 k = digit_val d2 k) ->
  spec_cpf_check_digit d1 n = spec_cpf_check_digit d2 n.
Proof.
  intros H. unfold spec_cpf_check_digit.
  rewrite (sigma_ext _ (fun i => digit_val d2 i * (Z.of_nat n + 1 - Z.of_nat i)) n);
    [reflexivity|].
  intros k Hk. now rewrite H.
Qed.

Lemma spec_cnpj_check_digit_ext (d1 d2 : str) (w : list Z) :
  (forall k, (k < List.length w)%nat -> digit_val d1 k = digit_val d2 k) ->
  spec_cnpj_check_digit d1 w = spec_cnpj_check_digit d2 w.
Proof.
  intros H. unfold spec_cnpj_check_digit.
  rewrite (sigma_ext _ (fun i => digit_val d2 i * nth i w 0) (List.length w));
    [reflexivity|].
  intros k Hk. now rewrite H.
Qed.

(** X10: the payload of a CPF determines its check digits: two valid
    CPFs whose first nine digits are the same have the same digit values
    at indices 9 and 10, and are equal when both are written with the
    characters '0'-'9'. *)
Theorem cpf_payload_determines_check_digits (s1 s2 : str) :
  CPF.validate s1 = Return true ->
  CPF.validate s2 = Return true ->
  slice_to (CPF.digits (CPF.__init__ s1)) 9 = slice_to (CPF.digits (CPF.__init__ s2)) 9 ->
  digit_val (CPF.digits (CPF.__init__ s1)) 9 = digit_val (CPF.digits (CPF.__init__ s2)) 9 /\
  digit_val (CPF.digits (CPF.__init__ s1)) 10 = digit_val (CPF.digits (CPF.__init__ s2)) 10 /\
  (Forall is_ascii_digit (CPF.digits (CPF.__init__ s1)) ->
   Forall is_ascii_digit (CPF.digits (CPF.__init__ s2)) ->
   CPF.__eq__ (CPF.__init__ s1) (CPF_instance (CPF.__init__ s2)) = true).
Proof.
  unfold CPF.validate, CPF.digits. intros V1 V2 Hp.
  destruct (cpf_is_valid_spec (CPF.__init__ s1) (clean_all_decimal s1)) as (b1 & Hb1 & I1).
  destruct (cpf_is_valid_spec (CPF.__init__ s2) (clean_all_decimal s2)) as (b2 & Hb2 & I2).
  rewrite V1 in Hb1. rewrite V2 in Hb2.
  apply Return_inj in Hb1, Hb2. subst b1 b2.
  destruct I1 as [I1 _]. destruct (I1 eq_refl) as (L1 & _ & A1 & B1).
  destruct I2 as [I2 _]. destruct (I2 eq_refl) as (L2 & _ & A2 & B2).
  set (d1 := _digits (CPF.__init__ s1)) in *.
  set (d2 := _digits (CPF.__init__ s2)) in *.
  assert (E9 : digit_val d1 9 = digit_val d2 9).
  { rewrite A1, A2. apply spec_cpf_check_digit_ext.
    intros k Hk. exact (digit_val_prefix d1 d2 9 k Hp Hk). }
  assert (Hlt : forall k, (k < 10)%nat -> digit_val d1 k = digit_val d2 k).
  { intros k Hk. destruct (Nat.eq_dec k 9) as [->|Hn]; [exact E9|].
    apply (digit_val_prefix d1 d2 9 k Hp). lia. }
  assert (E10 : digit_val d1 10 = digit_val d2 10).
  { rewrite B1, B2. apply spec_cpf_check_digit_ext. exact Hlt. }
  split; [exact E9|]. split; [exact E10|].
  intros F1 F2. unfold CPF.__eq__. apply str_eqb_eq. fold d1 d2.
  unfold len in L1, L2.
  destruct d1 as [|a0 [|a1 [|a2 [|a3 [|a4 [|a5 [|a6 [|a7 [|a8 [|a9 [|a10 [|a11 r1]]]]]]]]]]]];
    simpl in L1; try lia.
  destruct d2 as [|b0 [|b1 [|b2 [|b3 [|b4 [|b5 [|b6 [|b7 [|b8 [|b9 [|b10 [|b11 r2]]]]]]]]]]]];
    simpl in L2; try lia.
  unfold slice_to in Hp. simpl in Hp. injection Hp as -> -> -> -> -> -> -> -> ->.
  rewrite Forall_forall in F1, F2.
  assert (a9 = b9).
  { eapply (ascii_digit_val_inj _ _ 9); try exact E9; try reflexivity;
      [apply F1 | apply F2]; simpl; tauto. }
  assert (a10 = b10).
  { eapply (ascii_digit_val_inj _ _ 10); try exact E10; try reflexivity;
      [apply F1 | apply F2]; simpl; tauto. }
  congruence.
Qed.

Lemma cpf_payload_determines_check_digits_witness :
  digit_val (CPF.digits (CPF.__init__ (lit "111.444.777-35"))) 9
  = digit_val (CPF.digits (CPF.__init__ (lit "11144477735"))) 9.
Proof.
  apply (cpf_payload_determines_check_digits (lit "111.444.777-35") (lit "11144477735"));
    vm_compute; reflexivity.
Defined.

(** X11: the payload of a CNPJ determines its check digits: two valid
    CNPJs whose first twelve digits are the same have the same digit
    values at indices 12 and 13, and are equal when both are written with
    the characters '0'-'9'. *)
Theorem cnpj_payload_determines_check_digits (s1 s2 : str) :
  CNPJ.validate s1 = Return true ->
  CNPJ.validate s2 = Return true ->
  slice_to (CNPJ.digits (CNPJ.__init__ s1)) 12 = slice_to (CNPJ.digits (CNPJ.__init__ s2)) 12 ->
  digit_val (CNPJ.digits (CNPJ.__init__ s1)) 12 = digit_val (CNPJ.digits (CNPJ.__init__ s2)) 12 /\
  digit_val (CNPJ.digits (CNPJ.__init__ s1)) 13 = digit_val (CNPJ.digits (CNPJ.__init__ s2)) 13 /\
  (Forall is_ascii_digit (CNPJ.digits (CNPJ.__init__ s1)) ->
   Forall is_ascii_digit (CNPJ.digits (CNPJ.__init__ s2)) ->
   CNPJ.__eq__ (CNPJ.__init__ s1) (CNPJ_instance (CNPJ.__init__ s2)) = true).
Proof.
  unfold CNPJ.validate, CNPJ.digits. intros V1 V2 Hp.
  destruct (cnpj_is_valid_spec (CNPJ.__init__ s1) (clean_all_decimal s1)) as (b1 & Hb1 & I1).
  destruct (cnpj_is_valid_spec (CNPJ.__init__ s2) (clean_all_decimal s2)) as (b2 & Hb2 & I2).
  rewrite V1 in Hb1. rewrite V2 in Hb2.
  apply Return_inj in Hb1, Hb2. subst b1 b2.
  destruct I1 as [I1 _]. destruct (I1 eq_refl) as (L1 & _ & A1 & B1).
  destruct I2 as [I2 _]. destruct (I2 eq_refl) as (L2 & _ & A2 & B2).
  set (d1 := _digits (CNPJ.__init__ s1)) in *.
  set (d2 := _digits (CNPJ.__init__ s2)) in *.
  assert (E12 : digit_val d1 12 = digit_val d2 12).
  { rewrite A1, A2. apply spec_cnpj_check_digit_ext.
    intros k Hk. exact (digit_val_prefix d1 d2 12 k Hp Hk). }
  assert (Hlt : forall k, (k < 13)%nat -> digit_val d1 k = digit_val d2 k).
  { intros k Hk. destruct (Nat.eq_dec k 12) as [->|Hn]; [exact E12|].
    apply (digit_val_prefix d1 d2 12 k Hp). lia. }
  assert (E13 : digit_val d1 13 = digit_val d2 13).
  { rewrite B1, B2. apply spec_cnpj_check_digit_ext. exact Hlt. }
  split; [exact E12|]. split; [exact E13|].
  intros F1 F2. unfold CNPJ.__eq__. apply str_eqb_eq. fold d1 d2.
  unfold len in L1, L2.
  destruct d1 as [|a0 [|a1 [|a2 [|a3 [|a4 [|a5 [|a6 [|a7 [|a8 [|a9 [|a10 [|a11 [|a12 [|a13 [|a14 r1]]]]]]]]]]]]]]];
    simpl in L1; try lia.
  destruct d2 as [|b0 [|b1 [|b2 [|b3 [|b4 [|b5 [|b6 [|b7 [|b8 [|b9 [|b10 [|b11 [|b12 [|b13 [|b14 r2]]]]]]]]]]]]]]];
    simpl in L2; try lia.
  unfold slice_to in Hp. simpl in Hp.
  injection Hp as -> -> -> -> -> -> -> -> -> -> -> ->.
  rewrite Forall_forall in F1, F2.
  assert (a12 = b12).
  { eapply (ascii_digit_val_inj _ _ 12); try exact E12; try reflexivity;
      [apply F1 | apply F2]; simpl; tauto. }
  assert (a13 = b13).
  { eapply (ascii_digit_val_inj _ _ 13); try exact E13; try reflexivity;
      [apply F1 | apply F2]; simpl; tauto. }
  congruence.
Qed.

Lemma cnpj_payload_determines_check_digits_witness :
  digit_val (CNPJ.digits (CNPJ.__init__ (lit "11.222.333/0001-81"))) 12
  = digit_val (CNPJ.digits (CNPJ.__init__ (lit "11222333000181"))) 12.
Proof.
  apply (cnpj_payload_determines_check_digits (lit "11.222.333/0001-81") (lit "11222333000181"));
    vm_compute; reflexivity.
Defined.

(** X12: the test on identical digits is what rejects the uniform
    strings: each of the ten CPF strings made of eleven copies of one
    digit passes the verification of the check digits; of the ten uniform
    CNPJ strings only the one made of zeros does. *)
Theorem uniform_strings_check_digits (k : Z) :
  0 <= k <= 9 ->
  CPF._validate_check_digits (CPF.__init__ (repeat (ascii_digit k) 11)) = Return true /\
  (CNPJ._validate_check_digits (CNPJ.__init__ (repeat (ascii_digit k) 14)) = Return true
   <-> k = 0).
Proof.
  intros Hk. apply digit_cases in Hk.
  destruct Hk as [-> | Hk]; [split; [reflexivity | split; reflexivity]|].
  repeat (destruct Hk as [-> | Hk];
          [split; [reflexivity | split; [vm_compute; discriminate | discriminate]]|]).
  subst k. split; [reflexivity | split; [vm_compute; discriminate | discriminate]].
Qed.

Lemma uniform_strings_check_digits_witness :
  CPF._validate_check_digits (CPF.__init__ (repeat (ascii_digit 7) 11)) = Return true.
Proof. apply (uniform_strings_check_digits 7). lia. Defined.

(** X13: no string is both a valid CPF and a valid CNPJ. *)
Theorem never_both_valid (s : str) :
  ~ (CPF.validate s = Return true /\ CNPJ.validate s = Return true).
Proof.
  unfold CPF.validate, CNPJ.validate. intros [V1 V2].
  destruct (cpf_is_valid_spec (CPF.__init__ s) (clean_all_decimal s)) as (b1 & Hb1 & I1).
  destruct (cnpj_is_valid_spec (CNPJ.__init__ s) (clean_all_decimal s)) as (b2 & Hb2 & I2).
  rewrite V1 in Hb1. rewrite V2 in Hb2.
  apply Return_inj in Hb1, Hb2. subst b1 b2.
  destruct I1 as [I1 _]. destruct (I1 eq_refl) as (L1 & _).
  destruct I2 as [I2 _]. destruct (I2 eq_refl) as (L2 & _).
  cbn [_digits CPF.__init__ CNPJ.__init__] in L1, L2.
  unfold CPF._clean, CNPJ._clean in *. lia.
Qed.

(** ** Exceptions *)

Lemma Raise_inj {A : Type} (a b : exn) : @Raise A a = Raise b -> a = b.
Proof. intros H. now injection H. Qed.

(** X14: what [formatted] raises is an instance of the kind's own error
    class, of [InvalidDocumentError] and of [ValueError], and not of the
    other kind's error class nor of [LookupError]; so an
    [except InvalidDocumentError] (or [except ValueError]) clause around
    [formatted] always catches it, and [__str__] is [formatted] guarded by
    [except InvalidCPFError] (or [except InvalidCNPJError]). *)
Theorem formatted_errors_are_document_errors (self : attrs) (e : exn) (fallback : str) :
  (CPF.formatted self = Raise e ->
   isinstance e cls_InvalidCPFError = true /\
   isinstance e cls_InvalidDocumentError = true /\
   isinstance e cls_ValueError = true /\
   isinstance e cls_Exception = true /\
   isinstance e cls_InvalidCNPJError = false /\
   isinstance e cls_LookupError = false) /\
  (CNPJ.formatted self = Raise e ->
   isinstance e cls_InvalidCNPJError = true /\
   isinstance e cls_InvalidDocumentError = true /\
   isinstance e cls_ValueError = true /\
   isinstance e cls_Exception = true /\
   isinstance e cls_InvalidCPFError = false /\
   isinstance e cls_LookupError = false) /\
  (exists v, try_except (CPF.formatted self) cls_InvalidDocumentError (Return fallback)
             = Return v) /\
  (exists v, try_except (CNPJ.formatted self) cls_InvalidDocumentError (Return fallback)
             = Return v) /\
  (exists v, try_except (CPF.formatted self) cls_ValueError (Return fallback) = Return v) /\
  (exists v, try_except (CNPJ.formatted self) cls_ValueError (Return fallback) = Return v) /\
  CPF.__str__ self
  = try_except (CPF.formatted self) cls_InvalidCPFError (Return (_digits self)) /\
  CNPJ.__str__ self
  = try_except (CNPJ.formatted self) cls_InvalidCNPJError (Return (_digits self)) /\
  try_except (CPF.formatted self) cls_InvalidCNPJError (Return fallback) = CPF.formatted self /\
  try_except (CNPJ.formatted self) cls_InvalidCPFError (Return fallback) = CNPJ.formatted self.
Proof.
  destruct (cpf_formatted_cases self) as [(_ & f & Hf & Hs) | (_ & Hf & Hs)];
  destruct (cnpj_formatted_cases self) as [(_ & f' & Hf' & Hs') | (_ & Hf' & Hs')];
    rewrite Hf, Hf', Hs, Hs';
    repeat split; try discriminate;
    try (match goal with
         | H : Raise _ = Raise _ |- _ => apply Raise_inj in H; subst e; reflexivity
         end);
    try (eexists; reflexivity).
Qed.

Lemma getitem_past_end {A : Type} (l : list A) (i : Z) :
  len l <= i -> getitem l i = Raise IndexError.
Proof.
  unfold len. intros H. unfold getitem.
  assert (E : (i <? 0) = false) by (apply Z.ltb_ge; lia).
  cbv zeta. rewrite E. cbv iota. rewrite E.
  assert (N : nth_error l (Z.to_nat i) = None) by (apply nth_error_None; lia).
  now rewrite N.
Qed.

Lemma sum_loop_raises (f : Z -> py Z) (pre rest : list Z) (i acc : Z) (e : exn) :
  (forall k, In k pre -> exists v, f k = Return v) ->
  f i = Raise e ->
  sum_loop f (pre ++ i :: rest) acc = Raise e.
Proof.
  revert acc. induction pre as [|k pre IH]; intros acc Hp Hi; simpl.
  - now rewrite Hi.
  - destruct (Hp k (or_introl eq_refl)) as [v ->]. simpl.
    apply IH; [|exact Hi]. intros j Hj. apply Hp. now right.
Qed.

Lemma range_split (n m : nat) :
  (m < n)%nat ->
  range n = range m ++ Z.of_nat m :: map Z.of_nat (seq (S m) (n - S m)).
Proof.
  intros H. unfold range.
  replace n with (m + S (n - S m))%nat at 1 by lia.
  rewrite seq_app, map_app. reflexivity.
Qed.

Lemma py_sum_raises (f : Z -> py Z) (n m : nat) (e : exn) :
  (m < n)%nat ->
  (forall k, (k < m)%nat -> exists v, f (Z.of_nat k) = Return v) ->
  f (Z.of_nat m) = Raise e ->
  py_sum f (range n) = Raise e.
Proof.
  intros Hm Hk He. unfold py_sum. rewrite (range_split n m Hm).
  apply sum_loop_raises; [|exact He].
  intros k Hin. unfold range in Hin.
  apply in_map_iff in Hin as (j & <- & Hj). apply in_seq in Hj.
  apply Hk. lia.
Qed.

(** X15: the length test of [is_valid] is what keeps the verification of
    the check digits from raising: on fewer than ten digits (CPF) or
    fewer than thirteen (CNPJ), [_validate_check_digits] raises
    [IndexError], while [is_valid] returns false. *)
Theorem short_input_needs_length_guard (s : str) :
  (len (CPF.digits (CPF.__init__ s)) <= 9 ->
   CPF._validate_check_digits (CPF.__init__ s) = Raise IndexError /\
   CPF.is_valid (CPF.__init__ s) = Return false) /\
  (len (CNPJ.digits (CNPJ.__init__ s)) <= 12 ->
   CNPJ._validate_check_digits (CNPJ.__init__ s) = Raise IndexError /\
   CNPJ.is_valid (CNPJ.__init__ s) = Return false).
Proof.
  pose proof (clean_all_decimal s) as Hd.
  unfold CPF.digits, CNPJ.digits. cbn [_digits CPF.__init__ CNPJ.__init__].
  unfold CPF._clean, CNPJ._clean.
  split; intros Hl.
  - split.
    + unfold CPF._validate_check_digits. cbn [_digits CPF.__init__]. unfold CPF._clean.
      set (d := re_sub_nondigit s) in *. unfold len in Hl.
      destruct (Nat.eq_dec (List.length d) 9) as [E|E].
      * pose proof (cpf_sum d 9 Hd ltac:(lia)) as S1.
        change (Z.of_nat 9 + 1) with 10 in S1. rewrite S1. cbn [bind].
        rewrite (getitem_past_end d 9) by (unfold len; lia). reflexivity.
      * rewrite (py_sum_raises _ 9 (List.length d) IndexError); [reflexivity|lia| |].
        -- intros k Hk. rewrite int_getitem by (unfold len; assumption || lia).
           eexists; reflexivity.
        -- rewrite getitem_past_end by (unfold len; lia). reflexivity.
    + unfold CPF.is_valid. cbn [_digits CPF.__init__]. unfold CPF._clean.
      destruct (Z.eqb_spec (len (re_sub_nondigit s)) 11) as [E|E]; [lia|reflexivity].
  - split.
    + unfold CNPJ._validate_check_digits. cbn [_digits CNPJ.__init__]. unfold CNPJ._clean.
      set (d := re_sub_nondigit s) in *. unfold len in Hl.
      destruct (Nat.eq_dec (List.length d) 12) as [E|E].
      * pose proof (cnpj_sum d CNPJ.weights_first Hd) as S1.
        change (List.length CNPJ.weights_first) with 12%nat in S1.
        rewrite S1 by lia. cbn [bind].
        rewrite (getitem_past_end d 12) by (unfold len; lia). reflexivity.
      * rewrite (py_sum_raises _ 12 (List.length d) IndexError); [reflexivity|lia| |].
        -- intros k Hk. rewrite int_getitem by (unfold len; assumption || lia).
           rewrite (getitem_nth CNPJ.weights_first k 0) by (simpl; lia).
           eexists; reflexivity.
        -- rewrite getitem_past_end by (unfold len; lia). reflexivity.
    + unfold CNPJ.is_valid. cbn [_digits CNPJ.__init__]. unfold CNPJ._clean.
      destruct (Z.eqb_spec (len (re_sub_nondigit s)) 14) as [E|E]; [lia|reflexivity].
Qed.

(** ** Digits of other scripts *)

Lemma to_decimal_script_digit (z : N) (k : Z) :
  In z decimal_zeros -> in_0_9 k -> to_decimal (script_digit z k) = Some k.
Proof.
  intros Hz Hk.
  assert (T : forallb (fun z => forallb (fun k =>
                match to_decimal (script_digit z k) with
                | Some v => v =? k
                | None => false
                end) [0; 1; 2; 3; 4; 5; 6; 7; 8; 9]) decimal_zeros = true)
    by (vm_compute; reflexivity).
  rewrite forallb_forall in T. specialize (T z Hz).
  rewrite forallb_forall in T. specialize (T k).
  assert (Hin : In k [0; 1; 2; 3; 4; 5; 6; 7; 8; 9]).
  { apply digit_cases in Hk. simpl. intuition auto. }
  specialize (T Hin).
  destruct (to_decimal (script_digit z k)) as [v|]; [|discriminate].
  apply Z.eqb_eq in T. now subst v.
Qed.

Section Spelling.
Variable spell : Z -> char.
Hypothesis spell_value : forall k, in_0_9 k -> to_decimal (spell k) = Some k.

Lemma spell_all_decimal (l : list Z) : Forall in_0_9 l -> all_decimal (map spell l).
Proof.
  intros H. apply Forall_map. eapply Forall_impl; [|exact H].
  intros x Hx. unfold is_decimal. now rewrite spell_value.
Qed.

Lemma spell_digit_val (l : list Z) (k : nat) :
  Forall in_0_9 l -> digit_val (map spell l) k = nth k l 0.
Proof.
  intros H. unfold digit_val. rewrite nth_error_map.
  destruct (nth_error l k) as [x|] eqn:E; simpl.
  - rewrite Forall_forall in H. specialize (H x (nth_error_In _ _ E)).
    rewrite spell_value by exact H.
    symmetry. now apply nth_error_nth.
  - apply nth_error_None in E. symmetry. now apply nth_overflow.
Qed.

Lemma spell_all_identical (l : list Z) :
  Forall in_0_9 l -> (all_identical (map spell l) <-> all_identical l).
Proof.
  intros Hf. rewrite Forall_forall in Hf. split; intros H a b Ha Hb.
  - assert (E : spell a = spell b) by (apply H; now apply in_map).
    pose proof (spell_value a (Hf a Ha)) as Va.
    pose proof (spell_value b (Hf b Hb)) as Vb.
    rewrite E in Va. congruence.
  - apply in_map_iff in Ha as (x & <- & Hx), Hb as (y & <- & Hy).
    f_equal. now apply H.
Qed.
End Spelling.

Lemma bool_eq_iff (b1 b2 : bool) : (b1 = true <-> b2 = true) -> b1 = b2.
Proof. destruct b1, b2; intros [H1 H2]; auto; symmetry; auto. Qed.

(** Validity is decided by the length, by the values of the digits and by
    whether the characters are all the same. *)
Lemma cpf_is_valid_same_values (a b : attrs) :
  all_decimal (_digits a) -> all_decimal (_digits b) ->
  List.length (_digits a) = List.length (_digits b) ->
  (forall k, digit_val (_digits a) k = digit_val (_digits b) k) ->
  (all_identical (_digits a) <-> all_identical (_digits b)) ->
  CPF.is_valid a = CPF.is_valid b.
Proof.
  intros Da Db Hl Hv Hi.
  destruct (cpf_is_valid_spec a Da) as (b1 & -> & I1).
  destruct (cpf_is_valid_spec b Db) as (b2 & -> & I2).
  f_equal. apply bool_eq_iff. rewrite I1, I2. unfold len. rewrite Hl, Hi, !Hv.
  rewrite (spec_cpf_check_digit_ext (_digits a) (_digits b) 9) by (intros; apply Hv).
  rewrite (spec_cpf_check_digit_ext (_digits a) (_digits b) 10) by (intros; apply Hv).
  reflexivity.
Qed.

Lemma cnpj_is_valid_same_values (a b : attrs) :
  all_decimal (_digits a) -> all_decimal (_digits b) ->
  List.length (_digits a) = List.length (_digits b) ->
  (forall k, digit_val (_digits a) k = digit_val (_digits b) k) ->
  (all_identical (_digits a) <-> all_identical (_digits b)) ->
  CNPJ.is_valid a = CNPJ.is_valid b.
Proof.
  intros Da Db Hl Hv Hi.
  destruct (cnpj_is_valid_spec a Da) as (b1 & -> & I1).
  destruct (cnpj_is_valid_spec b Db) as (b2 & -> & I2).
  f_equal. apply bool_eq_iff. rewrite I1, I2. unfold len. rewrite Hl, Hi, !Hv.
  rewrite (spec_cnpj_check_digit_ext (_digits a) (_digits b) spec_w1) by (intros; apply Hv).
  rewrite (spec_cnpj_check_digit_ext (_digits a) (_digits b) spec_w2) by (intros; apply Hv).
  reflexivity.
Qed.

Lemma is_valid_spelling (spell : Z -> char) (l : list Z) :
  (forall k, in_0_9 k -> to_decimal (spell k) = Some k) ->
  Forall in_0_9 l ->
  CPF.validate (map spell l) = CPF.validate (map ascii_digit l) /\
  CNPJ.validate (map spell l) = CNPJ.validate (map ascii_digit l).
Proof.
  intros Hs Hl.
  pose proof (spell_all_decimal spell Hs l Hl) as D1.
  pose proof (spell_all_decimal ascii_digit to_decimal_ascii_digit l Hl) as D2.
  assert (C1 : re_sub_nondigit (map spell l) = map spell l) by now apply clean_fixed.
  assert (C2 : re_sub_nondigit (map ascii_digit l) = map ascii_digit l) by now apply clean_fixed.
  unfold CPF.validate, CNPJ.validate.
  split; [apply cpf_is_valid_same_values | apply cnpj_is_valid_same_values];
    cbn [_digits CPF.__init__ CNPJ.__init__]; unfold CPF._clean, CNPJ._clean;
    rewrite ?C1, ?C2; try assumption.
  - now rewrite !length_map.
  - intros k. rewrite (spell_digit_val spell Hs l k Hl).
    now rewrite (spell_digit_val ascii_digit to_decimal_ascii_digit l k Hl).
  - rewrite (spell_all_identical spell Hs l Hl).
    now rewrite (spell_all_identical ascii_digit to_decimal_ascii_digit l Hl).
  - now rewrite !length_map.
  - intros k. rewrite (spell_digit_val spell Hs l k Hl).
    now rewrite (spell_digit_val ascii_digit to_decimal_ascii_digit l k Hl).
  - rewrite (spell_all_identical spell Hs l Hl).
    now rewrite (spell_all_identical ascii_digit to_decimal_ascii_digit l Hl).
Qed.

(** X16: validity does not depend on the script the digits are written
    in: a number written with the decimal digits of any one run of the
    table (Arabic-Indic, Devanagari, fullwidth, ...) is a valid CPF or
    CNPJ exactly when the same number written with '0'-'9' is. *)
Theorem validity_in_any_script (z : N) (l : list Z) :
  In z decimal_zeros ->
  Forall in_0_9 l ->
  CPF.validate (map (script_digit z) l) = CPF.validate (map ascii_digit l) /\
  CNPJ.validate (map (script_digit z) l) = CNPJ.validate (map ascii_digit l).
Proof.
  intros Hz Hl. apply is_valid_spelling; [|exact Hl].
  intros k Hk. now apply to_decimal_script_digit.
Qed.

Lemma validity_in_any_script_witness :
  CPF.validate (map (script_digit 1632) [1; 1; 1; 4; 4; 4; 7; 7; 7; 3; 5])
  = CPF.validate (map ascii_digit [1; 1; 1; 4; 4; 4; 7; 7; 7; 3; 5]).
Proof.
  apply (validity_in_any_script 1632 [1; 1; 1; 4; 4; 4; 7; 7; 7; 3; 5]).
  - simpl. tauto.
  - repeat constructor; unfold in_0_9; lia.
Defined.

Lemma cpf_uniform_checks (k : Z) :
  in_0_9 k ->
  digit_val (repeat (ascii_digit k) 11) 9 = spec_cpf_check_digit (repeat (ascii_digit k) 11) 9 /\
  digit_val (repeat (ascii_digit k) 11) 10 = spec_cpf_check_digit (repeat (ascii_digit k) 11) 10.
Proof.
  intros Hk. apply digit_cases in Hk.
  repeat (destruct Hk as [-> | Hk]; [split; reflexivity|]).
  subst k. split; reflexivity.
Qed.

Lemma digit_val_last_respelled (c : char) (k : Z) (i : nat) :
  in_0_9 k -> to_decimal c = Some k ->
  digit_val (repeat (ascii_digit k) 10 ++ [c]) i = digit_val (repeat (ascii_digit k) 11) i.
Proof.
  intros Hk Hc. unfold digit_val. cbn [repeat List.app].
  do 10 (destruct i as [|i]; [reflexivity|]).
  destruct i as [|i].
  - cbn [nth_error]. now rewrite Hc, to_decimal_ascii_digit.
  - destruct i; reflexivity.
Qed.

(** X17: the rejection of identical digits compares characters, not
    digit values: ten copies of an ASCII digit followed by the same digit
    of another script is a valid CPF, although the eleven ASCII copies are
    not. *)
Theorem uniform_value_in_two_scripts_is_valid (z : N) (k : Z) :
  In z decimal_zeros -> z <> 48%N -> 0 <= k <= 9 ->
  CPF.validate (repeat (ascii_digit k) 10 ++ [script_digit z k]) = Return true /\
  CPF.validate (repeat (ascii_digit k) 11) = Return false.
Proof.
  intros Hz Hn Hk.
  pose proof (to_decimal_script_digit z k Hz Hk) as Hc.
  split.
  - set (d := repeat (ascii_digit k) 10 ++ [script_digit z k]).
    assert (Hd : all_decimal d).
    { apply Forall_app. split.
      - apply Forall_forall. intros c Hin. apply repeat_spec in Hin. subst c.
        now apply is_decimal_ascii_digit.
      - constructor; [|constructor]. unfold is_decimal. now rewrite Hc. }
    unfold CPF.validate.
    destruct (cpf_is_valid_spec (CPF.__init__ d)) as (b & -> & Hb);
      cbn [_digits CPF.__init__] in *; unfold CPF._clean in *;
      rewrite (clean_fixed d Hd) in *; [exact Hd|].
    f_equal. apply Hb.
    split; [reflexivity|]. split.
    + intros Hi.
      assert (E : ascii_digit k = script_digit z k).
      { apply Hi; unfold d; apply in_or_app; [left | right]; simpl; tauto. }
      unfold ascii_digit, script_digit in E. apply Hn. lia.
    + destruct (cpf_uniform_checks k Hk) as [U1 U2]. unfold d.
      rewrite !(digit_val_last_respelled _ k _ Hk Hc).
      rewrite (spec_cpf_check_digit_ext _ (repeat (ascii_digit k) 11) 9)
        by (intros; now apply digit_val_last_respelled).
      rewrite (spec_cpf_check_digit_ext _ (repeat (ascii_digit k) 11) 10)
        by (intros; now apply digit_val_last_respelled).
      now split.
  - unfold CPF.validate. apply cpf_identical_invalid; [apply clean_all_decimal|].
    cbn [_digits CPF.__init__]. unfold CPF._clean.
    rewrite clean_repeat_digit by assumption. apply all_identical_repeat.
Qed.

Lemma uniform_value_in_two_scripts_is_valid_witness :
  CPF.validate (repeat (ascii_digit 1) 10 ++ [script_digit 1632 1]) = Return true /\
  CPF.validate (repeat (ascii_digit 1) 11) = Return false.
Proof.
  apply (uniform_value_in_two_scripts_is_valid 1632 1).
  - simpl. tauto.
  - discriminate.
  - lia.
Defined.

(** ** The test suite *)

